(** * smartswap: the adaptive swappiness control loop

    A shallow embedding of [swap_manager/swap_manager.py] and of the
    functions of [swap_manager/swap_niceness_utils.py].

    Modelling conventions.
    - Python floats are idealised as exact rationals ([Q]); Python
      integers are [Z].  [int(x)] on a float is truncation toward zero.
      The calculator is modelled a second time in binary64
      ([calculate_swappiness_b64]), where every operation rounds as the
      hardware does.
    - A dict with a fixed key set is a record with one field per key.
    - Host state the program touches (the swappiness file, the swapfile)
      is threaded explicitly; everything the program does to the outside
      (prints, tunable writes, log appends, priority changes) is
      recorded, in program order, as a list of [Event]s.
    - What the outside hands to the program on one loop iteration (the
      parsed configuration file, process liveness, the sampled metrics,
      the clock) is a [TickInput]. *)

From Stdlib Require Import ZArith QArith Qround Qabs Qminmax List Bool Lia Lqa.
From Stdlib Require Import SpecFloat.
Import ListNotations.

Local Open Scope Q_scope.

(** ** Numeric helpers *)

(** Python's [int(x)] for a float [x]: truncation toward zero. *)
Definition py_int (x : Q) : Z := Z.quot (Qnum x) (Zpos (Qden x)).

(** Python's [min(a, b)]: [b] when [b < a], else [a]. *)
Definition py_min (a b : Q) : Q := if Qlt_le_dec b a then b else a.

(** Python's [sum] over a generator of floats, starting from [0]. *)
Definition py_sum (l : list Q) : Q := fold_left Qplus l 0.

(** [np.mean] of a non-empty list. *)
Definition np_mean (l : list Q) : Q := py_sum l / inject_Z (Z.of_nat (length l)).

(** ** Data model *)

(** The weights dict: keys [disk_latency], [cpu_usage], [ram_usage],
    [network_bandwidth], in this (insertion) order. *)
Record Weights := mkWeights {
  w_disk_latency : Q;
  w_cpu_usage : Q;
  w_ram_usage : Q;
  w_network_bandwidth : Q
}.

Definition DEFAULT_WEIGHTS : Weights := mkWeights (1#4) (1#4) (1#4) (1#4).
Definition DEFAULT_NICENESS : Z := 0%Z.
Definition DEFAULT_MAX_ENTRIES : Z := 200%Z.

(** The numeric entries of a metrics dict (every key but [timestamp]). *)
Record Metrics := mkMetrics {
  cpu_usage : Q;
  ram_usage : Q;
  swap_usage : Q;
  swap_total_gb : Q;
  swap_used_gb : Q;
  disk_latency : Q;
  disk_read_count : Q;
  disk_write_count : Q;
  network_bandwidth : Q
}.

(** One snapshot as [collect_metrics] returns it. *)
Record Snapshot := mkSnapshot {
  timestamp : Z;
  values : Metrics
}.

(** ** The calculator: [calculate_swappiness] *)

Record Normalized := mkNormalized {
  n_disk_latency : Q;
  n_cpu_usage : Q;
  n_ram_usage : Q;
  n_network_bandwidth : Q
}.

Definition normalized_metrics (metrics : Metrics) : Normalized :=
  mkNormalized
    (py_min 1 (disk_latency metrics / 100))
    (cpu_usage metrics / 100)
    (ram_usage metrics / 100)
    (py_min 1 (network_bandwidth metrics / 1000)).

(** [sum(weights[key] * normalized_metrics[key] for key in weights)] *)
Definition weighted_score (metrics : Metrics) (weights : Weights) : Q :=
  let n := normalized_metrics metrics in
  py_sum [ w_disk_latency weights * n_disk_latency n;
           w_cpu_usage weights * n_cpu_usage n;
           w_ram_usage weights * n_ram_usage n;
           w_network_bandwidth weights * n_network_bandwidth n ].

Definition cpu_factor (metrics : Metrics) : Q := 1 - cpu_usage metrics / 100.

Definition base_swappiness (metrics : Metrics) (weights : Weights) : Q :=
  100 + (weighted_score metrics weights - (1#2)) * 200.

Definition adjusted_swappiness (metrics : Metrics) (weights : Weights) : Q :=
  base_swappiness metrics weights * cpu_factor metrics.

Definition calculate_swappiness (metrics : Metrics) (weights : Weights) : Z :=
  Z.max 1 (Z.min 200 (py_int (adjusted_swappiness metrics weights))).

(** [validate_weights]: [true] when the sum check passes, [false] when
    the function raises. *)
Definition weights_total (w : Weights) : Q :=
  py_sum [ w_disk_latency w; w_cpu_usage w; w_ram_usage w; w_network_bandwidth w ].

Definition validate_weights (w : Weights) : bool :=
  if Qlt_le_dec (1#1000) (Qabs (weights_total w - 1)) then false else true.

(** *** The calculator as the specification words it *)

(** Rounding to the nearest integer, ties to even (Python's [round]). *)
Definition spec_round (x : Q) : Z :=
  let f := Qfloor x in
  let r := x - inject_Z f in
  match Qcompare r (1#2) with
  | Lt => f
  | Gt => (f + 1)%Z
  | Eq => if Z.even f then f else (f + 1)%Z
  end.

Definition spec_candidate (metrics : Metrics) (weights : Weights) : Z :=
  let nd := Qmin 1 (disk_latency metrics / 100) in
  let nc := cpu_usage metrics / 100 in
  let nr := ram_usage metrics / 100 in
  let nn := Qmin 1 (network_bandwidth metrics / 1000) in
  let score := w_disk_latency weights * nd + w_cpu_usage weights * nc
               + w_ram_usage weights * nr + w_network_bandwidth weights * nn in
  let factor := 1 - cpu_usage metrics / 100 in
  let base := 100 + (score - (1#2)) * 200 in
  Z.max 1 (Z.min 200 (spec_round (base * factor))).

(** ** Effects

    Everything the program does to the outside, in program order. *)

Inductive Msg :=
| MsgConfigFoundPid (pid nice : Z)
| MsgUpdatedNiceness (nice pid : Z)
| MsgFailedNiceness
| MsgPidNoLongerRunning (pid : Z)
| MsgNoPid (nice : Z)
| MsgErrorLoadingConfig
| MsgWeightsChanged (old new : Weights)
| MsgPidStopTracking (pid : Z)
| MsgSwappinessSet (v : Z)
| MsgErrorSettingSwappiness
| MsgErrorReadingSwappiness
| MsgErrorCollectingMetrics
| MsgErrorWritingLog
| MsgSwapfileExists
| MsgCreatingSwapfile (size_mb : Z)
| MsgFallocateFailed
| MsgFailedCreateSwapfile
| MsgSwapfileEnabled (size_mb : Z)
| MsgErrorSettingUpSwap
| MsgErrorWeightsSum
| MsgErrorInDaemonLoop.

(** The arguments of one [write_to_log] call. *)
Record LogRecord := mkLogRecord {
  lr_metrics : Snapshot;
  lr_old_swappiness : option Z;
  lr_new_swappiness : option Z;
  lr_interval : Z;
  lr_weights_changed : option (Weights * Weights)
}.

Inductive Cmd := Fallocate (size_mb : Z) | Dd (size_mb : Z) | Mkswap | Swapon.

Inductive Event :=
| EPrint (m : Msg)
| ESetPriority (pid nice : Z) (ok : bool)
| EWriteTunable (v : Z) (ok : bool)
| ELog (r : LogRecord) (ok : bool)
| ERun (c : Cmd)
| EChmod (mode : Z)
| ERemove.

(** The part of the host the loop reads and writes, together with the
    one mutable object [run_daemon] shares with [adjust_swappiness]. *)
Record World := mkWorld {
  tunable : option Z;        (* what SWAPPINESS_PATH parses to; None: the read raises *)
  tunable_writable : bool;   (* false: opening SWAPPINESS_PATH for writing raises *)
  log_writable : bool;       (* false: appending to LOG_FILE raises *)
  metrics_list : list Snapshot
}.

Definition with_tunable (w : World) (v : Z) : World :=
  mkWorld (Some v) (tunable_writable w) (log_writable w) (metrics_list w).

Definition with_metrics_list (w : World) (l : list Snapshot) : World :=
  mkWorld (tunable w) (tunable_writable w) (log_writable w) l.

(** A computation reads and updates the world and emits events. *)
Definition M (A : Type) : Type := World -> A * World * list Event.

Definition ret {A} (a : A) : M A := fun w => (a, w, []).

Definition bind {A B} (c : M A) (k : A -> M B) : M B :=
  fun w =>
    let '(a, w1, e1) := c w in
    let '(b, w2, e2) := k a w1 in
    (b, w2, e1 ++ e2).

Definition emit (e : Event) : M unit := fun w => (tt, w, [e]).
Definition get_world : M World := fun w => (w, w, []).
Definition put_world (w' : World) : M unit := fun _ => (tt, w', []).

Notation "x <- c1 ;; c2" := (bind c1 (fun x => c2))
  (at level 61, c1 at next level, right associativity).
Notation "c1 ;;; c2" := (bind c1 (fun _ => c2))
  (at level 61, right associativity).

Definition print (m : Msg) : M unit := emit (EPrint m).

Definition result {A} (r : A * World * list Event) : A := fst (fst r).
Definition world_after {A} (r : A * World * list Event) : World := snd (fst r).
Definition events {A} (r : A * World * list Event) : list Event := snd r.

(** Projections of an event list. *)
Definition tunable_writes (es : list Event) : list Z :=
  flat_map (fun e => match e with EWriteTunable v _ => [v] | _ => [] end) es.

Definition log_records (es : list Event) : list LogRecord :=
  flat_map (fun e => match e with ELog r _ => [r] | _ => [] end) es.

Definition priority_calls (es : list Event) : list (Z * Z) :=
  flat_map (fun e => match e with ESetPriority p n _ => [(p, n)] | _ => [] end) es.

Definition expiry_reports (es : list Event) : list Z :=
  flat_map (fun e => match e with
                     | EPrint (MsgPidNoLongerRunning p) => [p]
                     | EPrint (MsgPidStopTracking p) => [p]
                     | _ => []
                     end) es.

(** ** Reading and writing the tunable, writing the log *)

Definition get_swappiness : M (option Z) :=
  w <- get_world ;;
  match tunable w with
  | Some v => ret (Some v)
  | None => print MsgErrorReadingSwappiness ;;; ret None
  end.

Definition set_swappiness (value : Z) : M unit :=
  w <- get_world ;;
  if tunable_writable w then
    emit (EWriteTunable value true) ;;;
    put_world (with_tunable w value) ;;;
    print (MsgSwappinessSet value)
  else
    emit (EWriteTunable value false) ;;;
    print MsgErrorSettingSwappiness.

Definition write_to_log (metrics : Snapshot) (old_swappiness new_swappiness : option Z)
    (interval : Z) (weights_changed : option (Weights * Weights)) : M unit :=
  w <- get_world ;;
  let r := mkLogRecord metrics old_swappiness new_swappiness interval weights_changed in
  if log_writable w then emit (ELog r true)
  else emit (ELog r false) ;;; print MsgErrorWritingLog.

(** ** The metrics window *)

(** [metrics_list.append(metrics)] followed by
    [if len(metrics_list) > max_entries: metrics_list.pop(0)]. *)
Definition window_append (max_entries : Z) (l : list Snapshot) (metrics : Snapshot)
    : list Snapshot :=
  let l' := l ++ [metrics] in
  if (max_entries <? Z.of_nat (length l'))%Z then tl l' else l'.

(** The moving averages: one [np.mean] per key other than [timestamp]. *)
Definition averages (l : list Snapshot) : Metrics :=
  let col (f : Metrics -> Q) := np_mean (map (fun entry => f (values entry)) l) in
  mkMetrics (col cpu_usage) (col ram_usage) (col swap_usage) (col swap_total_gb)
            (col swap_used_gb) (col disk_latency) (col disk_read_count)
            (col disk_write_count) (col network_bandwidth).

(** ** [adjust_swappiness]

    [metrics_list] is the list object in the world; the function only
    reads it. *)
Definition adjust_swappiness (weights : Weights)
    (weights_changed : option (Weights * Weights)) : M unit :=
  w <- get_world ;;
  let l := metrics_list w in
  if (Z.of_nat (length l) <? 5)%Z then ret tt
  else
    old <- get_swappiness ;;
    match old with
    | None => ret tt
    | Some old_swappiness =>
      let new_swappiness := calculate_swappiness (averages l) weights in
      if (5 <=? Z.abs (new_swappiness - old_swappiness))%Z then
        set_swappiness new_swappiness ;;;
        match hd_error (rev l) with      (* metrics_list[-1] *)
        | Some newest =>
          write_to_log newest (Some old_swappiness) (Some new_swappiness)
                       (Z.of_nat (length l)) weights_changed
        | None => ret tt                 (* not reached: len >= 5 *)
        end
      else ret tt
    end.

(** ** The configuration file and [load_config] *)

(** The parsed JSON object; [None] is an absent key. *)
Record ConfigFile := mkConfigFile {
  DISK_LATENCY : option Q;
  CPU_USAGE : option Q;
  RAM_USAGE : option Q;
  NETWORK_BANDWIDTH : option Q;
  PID : option Z;
  NICENESS : option Z
}.

(** The process settings dict. *)
Record Settings := mkSettings {
  pid : option Z;
  niceness : Z
}.

(** What the operating system answers when asked about a process. *)
Record ProcEnv := mkProcEnv {
  pid_exists : Z -> bool;
  setpriority_ok : Z -> Z -> bool   (* false: os.setpriority raises OSError *)
}.

(** [dict.get(key, default)] *)
Definition get_default {A} (o : option A) (d : A) : A :=
  match o with Some a => a | None => d end.

(** Truth value of [process_settings['pid']]: present and non-zero. *)
Definition pid_truthy (p : option Z) : option Z :=
  match p with
  | Some n => if (n =? 0)%Z then None else Some n
  | None => None
  end.

(** [config] is [None] when opening or parsing the file raises. *)
Definition load_config (config : option ConfigFile) (env : ProcEnv)
    : M (Weights * Settings) :=
  match config with
  | Some config =>
    let weights :=
      mkWeights (get_default (DISK_LATENCY config) (w_disk_latency DEFAULT_WEIGHTS))
                (get_default (CPU_USAGE config) (w_cpu_usage DEFAULT_WEIGHTS))
                (get_default (RAM_USAGE config) (w_ram_usage DEFAULT_WEIGHTS))
                (get_default (NETWORK_BANDWIDTH config)
                             (w_network_bandwidth DEFAULT_WEIGHTS)) in
    let process_settings :=
      mkSettings (PID config) (get_default (NICENESS config) DEFAULT_NICENESS) in
    match pid_truthy (pid process_settings) with
    | Some p =>
      if pid_exists env p then
        print (MsgConfigFoundPid p (niceness process_settings)) ;;;
        (if setpriority_ok env p (niceness process_settings) then
           emit (ESetPriority p (niceness process_settings) true) ;;;
           print (MsgUpdatedNiceness (niceness process_settings) p)
         else
           emit (ESetPriority p (niceness process_settings) false) ;;;
           print MsgFailedNiceness) ;;;
        ret (weights, process_settings)
      else
        print (MsgPidNoLongerRunning p) ;;;
        ret (weights, mkSettings None DEFAULT_NICENESS)
    | None =>
      print (MsgNoPid DEFAULT_NICENESS) ;;;
      ret (weights, process_settings)
    end
  | None =>
    print MsgErrorLoadingConfig ;;;
    ret (DEFAULT_WEIGHTS, mkSettings None DEFAULT_NICENESS)
  end.

(** ** The loop: [run_daemon] *)

(** Dict comparison: floats compare by value. *)
Definition weights_eqb (a b : Weights) : bool :=
  Qeq_bool (w_disk_latency a) (w_disk_latency b)
  && Qeq_bool (w_cpu_usage a) (w_cpu_usage b)
  && Qeq_bool (w_ram_usage a) (w_ram_usage b)
  && Qeq_bool (w_network_bandwidth a) (w_network_bandwidth b).

Definition option_Z_eqb (a b : option Z) : bool :=
  match a, b with
  | Some x, Some y => (x =? y)%Z
  | None, None => true
  | _, _ => false
  end.

Definition settings_eqb (a b : Settings) : bool :=
  option_Z_eqb (pid a) (pid b) && (niceness a =? niceness b)%Z.

(** [current_settings != previous_settings], where [previous_settings]
    starts out as [None]. *)
Definition settings_differ (current : Settings) (previous : option Settings) : bool :=
  match previous with
  | Some prev => negb (settings_eqb current prev)
  | None => true
  end.

(** The locals of [run_daemon] that survive an iteration. *)
Record Daemon := mkDaemon {
  previous_weights : Weights;
  previous_settings : option Settings
}.

(** What the outside supplies during one iteration. *)
Record TickInput := mkTickInput {
  in_config : option ConfigFile;
  in_env_load : ProcEnv;      (* process table as [load_config] sees it *)
  in_env_loop : ProcEnv;      (* process table as the loop body sees it *)
  in_sample : option Snapshot;  (* [collect_metrics]; None when it fails *)
  in_elapsed : Z              (* int((time.time() - start_time) / snapshot_interval) *)
}.

Definition collect_metrics (inp : TickInput) : M (option Snapshot) :=
  match in_sample inp with
  | Some m => ret (Some m)
  | None => print MsgErrorCollectingMetrics ;;; ret None
  end.

(** Lines 250-261: reload the weights and detect a change. *)
Definition reload_weights (current_weights : Weights) (d : Daemon)
    : M (option (Weights * Weights) * Weights) :=
  if negb (weights_eqb current_weights (previous_weights d)) then
    print (MsgWeightsChanged (previous_weights d) current_weights) ;;;
    ret (Some (previous_weights d, current_weights), current_weights)
  else ret (None, previous_weights d).

(** Lines 263-277: react to changed process settings.  Returns the new
    [previous_settings]. *)
Definition sync_settings (current_settings : Settings) (env : ProcEnv) (d : Daemon)
    : M (option Settings) :=
  if settings_differ current_settings (previous_settings d) then
    match pid_truthy (pid current_settings) with
    | Some p =>
      if pid_exists env p then
        if setpriority_ok env p (niceness current_settings) then
          emit (ESetPriority p (niceness current_settings) true) ;;;
          print (MsgUpdatedNiceness (niceness current_settings) p) ;;;
          ret (Some current_settings)
        else
          emit (ESetPriority p (niceness current_settings) false) ;;;
          print MsgFailedNiceness ;;;
          ret (Some current_settings)
      else
        print (MsgPidStopTracking p) ;;;
        ret (Some (mkSettings None DEFAULT_NICENESS))
    | None => ret (Some current_settings)
    end
  else ret (previous_settings d).

(** Lines 288-289: the record written on every iteration that has a
    sample; both swappiness arguments are fresh reads. *)
Definition log_tick (metrics : Snapshot) (elapsed_intervals : Z)
    (weights_changed : option (Weights * Weights)) : M unit :=
  old <- get_swappiness ;;
  new <- get_swappiness ;;
  write_to_log metrics old new elapsed_intervals weights_changed.

(** Lines 279-289: sample, update the window, adjust, log. *)
Definition sample_and_adjust (max_entries : Z) (inp : TickInput)
    (current_weights : Weights) (weights_changed : option (Weights * Weights))
    : M unit :=
  metrics <- collect_metrics inp ;;
  match metrics with
  | Some metrics =>
    w <- get_world ;;
    put_world (with_metrics_list w (window_append max_entries (metrics_list w) metrics)) ;;;
    adjust_swappiness current_weights weights_changed ;;;
    log_tick metrics (in_elapsed inp) weights_changed
  | None => ret tt
  end.

(** One iteration of the [while True] body, lines 250-289, on the path
    where line 288 evaluates; [loop_pass] below adds what happens when it
    raises, the [except] arm and the sleeps. *)
Definition tick (max_entries : Z) (inp : TickInput) (d : Daemon) : M Daemon :=
  cfg <- load_config (in_config inp) (in_env_load inp) ;;
  let '(current_weights, current_settings) := cfg in
  wc <- reload_weights current_weights d ;;
  let '(weights_changed, previous_weights') := wc in
  previous_settings' <- sync_settings current_settings (in_env_loop inp) d ;;
  sample_and_adjust max_entries inp current_weights weights_changed ;;;
  ret (mkDaemon previous_weights' previous_settings').

(** The weights an iteration hands to the calculator. *)
Definition current_weights_of (inp : TickInput) (w : World) : Weights :=
  fst (result (load_config (in_config inp) (in_env_load inp) w)).

(** The process settings an iteration ends up with. *)
Definition current_settings_of (inp : TickInput) (w : World) : Settings :=
  snd (result (load_config (in_config inp) (in_env_load inp) w)).

(** The weights-change marker an iteration computes. *)
Definition weights_changed_of (inp : TickInput) (d : Daemon) (w : World)
    : option (Weights * Weights) :=
  fst (result (reload_weights (current_weights_of inp w) d w)).

(** The first [length inputs] iterations of the loop. *)
Fixpoint iterate (max_entries : Z) (inputs : list TickInput) (d : Daemon) : M Daemon :=
  match inputs with
  | [] => ret d
  | inp :: rest => d' <- tick max_entries inp d ;; iterate max_entries rest d'
  end.

(** [run_daemon]: fresh locals, then the loop. *)
Definition run_daemon (max_entries : Z) (weights : Weights) (inputs : list TickInput)
    : M Daemon :=
  w <- get_world ;;
  put_world (with_metrics_list w []) ;;;
  iterate max_entries inputs (mkDaemon weights None).

(** ** Startup: the head of [main]

    Lines 325-332: the initial weights are loaded and validated; [None]
    is the early [return] taken when [validate_weights] raises. *)
Definition main_initial_weights (config : option ConfigFile) (env : ProcEnv)
    : M (option Weights) :=
  cfg <- load_config config env ;;
  let '(weights, process_settings) := cfg in
  if validate_weights weights then ret (Some weights)
  else print MsgErrorWeightsSum ;;; ret None.

(** ** The provisioner: [create_swapfile] *)

(** What sits at SWAPFILE_PATH. *)
Record SwapFile := mkSwapFile {
  sf_size_mb : Z;
  sf_mode : Z;
  sf_signature : bool;   (* mkswap has run on it *)
  sf_active : bool       (* swapon has run on it *)
}.

(** How an external command ends. *)
Inductive Outcome :=
| Succeeds
| Fails      (* subprocess.CalledProcessError *)
| Errors.    (* OSError, e.g. the program is not installed *)

Record ProvEnv := mkProvEnv {
  fallocate_outcome : Outcome;
  dd_outcome : Outcome;
  partial_file : option SwapFile;   (* what a failing allocation leaves behind *)
  chmod_ok : bool;
  mkswap_outcome : Outcome;
  swapon_outcome : Outcome
}.

(** A call either returns a value or lets an exception escape. *)
Inductive Completion (A : Type) :=
| Returns (a : A)
| Raises.
Arguments Returns {A} a.
Arguments Raises {A}.

(** [if os.path.exists(SWAPFILE_PATH): os.remove(SWAPFILE_PATH)] *)
Definition remove_if_exists (fs : option SwapFile) : option SwapFile * list Event :=
  match fs with
  | Some _ => (None, [ERemove])
  | None => (None, [])
  end.

(** Lines 107-124: permissions, signature, activation. *)
Definition setup_swap (size_mb : Z) (env : ProvEnv) (f : SwapFile)
    : Completion bool * option SwapFile * list Event :=
  let failed (fs : option SwapFile) (es : list Event) :=
    let '(fs', rm) := remove_if_exists fs in
    (Returns false, fs', es ++ [EPrint MsgErrorSettingUpSwap] ++ rm) in
  if chmod_ok env then
    let f1 := mkSwapFile (sf_size_mb f) 384 (sf_signature f) (sf_active f) in
    match mkswap_outcome env with
    | Succeeds =>
      let f2 := mkSwapFile (sf_size_mb f1) (sf_mode f1) true (sf_active f1) in
      match swapon_outcome env with
      | Succeeds =>
        let f3 := mkSwapFile (sf_size_mb f2) (sf_mode f2) (sf_signature f2) true in
        (Returns true, Some f3,
         [EChmod 384; ERun Mkswap; ERun Swapon; EPrint (MsgSwapfileEnabled size_mb)])
      | _ => failed (Some f2) [EChmod 384; ERun Mkswap; ERun Swapon]
      end
    | _ => failed (Some f1) [EChmod 384; ERun Mkswap]
    end
  else failed (Some f) [EChmod 384].

Definition create_swapfile (size_mb : Z) (env : ProvEnv) (fs : option SwapFile)
    : Completion bool * option SwapFile * list Event :=
  match fs with
  | Some _ => (Returns true, fs, [EPrint MsgSwapfileExists])
  | None =>
    let fresh := mkSwapFile size_mb 420 false false in
    let continue (es : list Event) :=
      let '(r, fs', es') := setup_swap size_mb env fresh in
      (r, fs', es ++ es') in
    let start := [EPrint (MsgCreatingSwapfile size_mb); ERun (Fallocate size_mb)] in
    match fallocate_outcome env with
    | Succeeds => continue start
    | Errors => (Raises, partial_file env, start)
    | Fails =>
      let start' := start ++ [EPrint MsgFallocateFailed; ERun (Dd size_mb)] in
      match dd_outcome env with
      | Succeeds => continue start'
      | Errors => (Raises, partial_file env, start')
      | Fails =>
        let '(fs', rm) := remove_if_exists (partial_file env) in
        (Returns false, fs', start' ++ [EPrint MsgFailedCreateSwapfile] ++ rm)
      end
    end
  end.

(** Events that touch the swapfile. *)
Definition destructive (e : Event) : bool :=
  match e with
  | ERun _ | EChmod _ | ERemove => true
  | _ => false
  end.

(** ** Specification-side notions *)

(** [t] is [x] with its fractional part dropped. *)
Definition truncates (x : Q) (t : Z) : Prop :=
  (0 <= x -> inject_Z t <= x /\ x < inject_Z t + 1)
  /\ (x <= 0 -> inject_Z t - 1 < x /\ x <= inject_Z t).

(** The closed form of the value handed to [int]. *)
Definition adjusted_formula (metrics : Metrics) (weights : Weights) : Q :=
  (100 + ((w_disk_latency weights * Qmin 1 (disk_latency metrics / 100)
           + w_cpu_usage weights * (cpu_usage metrics / 100)
           + w_ram_usage weights * (ram_usage metrics / 100)
           + w_network_bandwidth weights * Qmin 1 (network_bandwidth metrics / 1000))
          - (1#2)) * 200)
  * (1 - cpu_usage metrics / 100).

(** Sample inputs. *)
Definition metrics_of (disk cpu ram net : Q) : Metrics :=
  mkMetrics cpu ram 0 0 0 disk 0 0 net.

Definition snapshot_of (ts : Z) (disk cpu ram net : Q) : Snapshot :=
  mkSnapshot ts (metrics_of disk cpu ram net).

Definition quiet_env : ProcEnv := mkProcEnv (fun _ => false) (fun _ _ => false).

Definition config_of (wd wc wr wn : Q) (p : option Z) (n : option Z) : ConfigFile :=
  mkConfigFile (Some wd) (Some wc) (Some wr) (Some wn) p n.

Definition default_config : ConfigFile :=
  config_of (1#4) (1#4) (1#4) (1#4) None None.

Definition settled : Daemon :=
  mkDaemon DEFAULT_WEIGHTS (Some (mkSettings None DEFAULT_NICENESS)).

(** Four earlier samples with disk latency 100 ms, idle cpu, the given
    ram percentage and no network traffic. *)
Definition four_samples (ram : Q) : list Snapshot :=
  [snapshot_of 1 100 0 ram 0; snapshot_of 2 100 0 ram 0;
   snapshot_of 3 100 0 ram 0; snapshot_of 4 100 0 ram 0].

(** A host whose tunable reads 60, holding those four samples, and the
    iteration input that brings a fifth like them under the default
    configuration. *)
Definition gate_world (ram : Q) : World :=
  mkWorld (Some 60%Z) true true (four_samples ram).

Definition gate_sample (ram : Q) : Snapshot := snapshot_of 5 100 0 ram 0.

Definition gate_input (ram : Q) : TickInput :=
  mkTickInput (Some default_config) quiet_env quiet_env (Some (gate_sample ram)) 4.

(** A configuration naming process 4242 at niceness 5 with a weighting
    of its own, an environment in which every process is alive and
    adjustable, and iteration inputs built from them. *)
Definition custom_weights : Weights := mkWeights (1#2) (1#2) 0 0.

Definition custom_config : ConfigFile :=
  config_of (1#2) (1#2) 0 0 (Some 4242%Z) (Some 5%Z).

Definition live_env : ProcEnv := mkProcEnv (fun _ => true) (fun _ _ => true).

Definition start_daemon : Daemon := mkDaemon DEFAULT_WEIGHTS None.

Definition empty_world : World := mkWorld (Some 60%Z) true true [].

(** The configuration loads and process 4242 is alive. *)
Definition good_input : TickInput :=
  mkTickInput (Some custom_config) live_env live_env None 0.

(** The configuration file cannot be read or parsed. *)
Definition unreadable_input : TickInput :=
  mkTickInput None live_env live_env None 1.

(** The same configuration, but process 4242 is gone. *)
Definition expired_input (elapsed : Z) : TickInput :=
  mkTickInput (Some custom_config) quiet_env quiet_env None elapsed.

(** A weighting that sums to 2.0, the configuration supplying it, a host
    whose tunable reads 25 with four samples at 50% ram in the window, and
    the iteration input bringing a fifth. *)
Definition invalid_weights : Weights := mkWeights (1#2) (1#2) (1#2) (1#2).

Definition invalid_config : ConfigFile :=
  config_of (1#2) (1#2) (1#2) (1#2) None None.

Definition half_ram (ts : Z) : Snapshot := snapshot_of ts 0 0 50 0.

Definition invalid_world : World :=
  mkWorld (Some 25%Z) true true [half_ram 1; half_ram 2; half_ram 3; half_ram 4].

Definition invalid_input : TickInput :=
  mkTickInput (Some invalid_config) quiet_env quiet_env (Some (half_ram 5)) 4.

(** The iteration input names process [p] in its configuration and
    [load_config] finds it gone. *)
Definition names_dead_pid (p : Z) (inp : TickInput) : bool :=
  match in_config inp with
  | Some config =>
    option_Z_eqb (PID config) (Some p) && negb (pid_exists (in_env_load inp) p)
  | None => false
  end.

(** A computation that neither touches process priorities nor reports an
    expired process. *)
Definition proc_silent {A} (c : M A) : Prop :=
  forall w, priority_calls (events (c w)) = [] /\ expiry_reports (events (c w)) = [].

(** An already provisioned swapfile and an environment in which every
    provisioning step would fail. *)
Definition active_swapfile : option SwapFile := Some (mkSwapFile 1024 384 true true).

Definition failing_env : ProvEnv := mkProvEnv Fails Fails None false Fails Fails.

(** ** The sampler: the body of [collect_metrics] *)

(** Python's [max(a, b)]: [b] when [b > a], else [a]. *)
Definition py_max (a b : Q) : Q := if Qlt_le_dec a b then b else a.

(** Python's [round(x, 2)]: the nearest multiple of 0.01, ties to even. *)
Definition py_round2 (x : Q) : Q := inject_Z (spec_round (x * 100)) / 100.

(** What psutil and the clock hand to [collect_metrics]. *)
Record Counters := mkCounters {
  read_time : Z;                 (* disk_io_counters(), milliseconds *)
  read_count : Z;
  write_count : Z;
  swap_total : Z;                (* swap_memory(), bytes *)
  swap_used : Z;
  bytes_sent : Z;                (* net_io_counters() *)
  bytes_recv : Z;
  cpu_percent : Q;
  virtual_memory_percent : Q;
  utc_now : Z
}.

Definition GiB : Q := inject_Z (1024 * 1024 * 1024).

(** Lines 144-169: the dict built from the readings. *)
Definition snapshot_from (c : Counters) : Snapshot :=
  let latency :=
    if (0 <? read_count c)%Z then inject_Z (read_time c) / inject_Z (read_count c)
    else 0 in
  let total_gb := inject_Z (swap_total c) / GiB in
  let used_gb := inject_Z (swap_used c) / GiB in
  let swap_percent :=
    if Qlt_le_dec 0 total_gb then used_gb / total_gb * 100 else 0 in
  mkSnapshot (utc_now c)
    (mkMetrics (cpu_percent c)
               (virtual_memory_percent c)
               swap_percent
               (py_round2 total_gb)
               (py_round2 used_gb)
               (py_round2 latency)
               (inject_Z (read_count c))
               (inject_Z (write_count c))
               (py_round2 (inject_Z (bytes_sent c + bytes_recv c) / 1024 / 1024))).

(** [collect_metrics] on the readings; [None] when a psutil call raises. *)
Definition collect_metrics_from (readings : option Counters) : M (option Snapshot) :=
  match readings with
  | Some c => ret (Some (snapshot_from c))
  | None => print MsgErrorCollectingMetrics ;;; ret None
  end.

(** ** Startup: [main] *)

(** The parsed command line. *)
Record Args := mkArgs {
  a_max_entries : Z;
  a_snapshot_interval : Z;
  a_swapfile_size : Z;
  a_disk_latency_weight : Q;
  a_cpu_usage_weight : Q;
  a_ram_usage_weight : Q;
  a_network_bandwidth_weight : Q;
  a_pid : option Z;
  a_niceness : option Z
}.

(** How a psutil call on a process ends. *)
Inductive ProcResult (A : Type) :=
| POk (a : A)
| PNoSuchProcess
| PAccessDenied
| PRaises.           (* any other exception; [main] does not catch it *)
Arguments POk {A} a.
Arguments PNoSuchProcess {A}.
Arguments PAccessDenied {A}.
Arguments PRaises {A}.

Record MainEnv := mkMainEnv {
  process_lookup : Z -> ProcResult unit;     (* psutil.Process(pid) *)
  process_nice : Z -> ProcResult Z;          (* process.nice() *)
  main_setpriority_ok : Z -> Z -> bool       (* false: os.setpriority raises OSError *)
}.

(** What [main] and the profile functions print themselves. *)
Inductive Note :=
| NoteMonitoring (pid : Z)
| NoteNicenessRange
| NoteSetNiceness (nice pid : Z)
| NoteFailedSetNiceness
| NoteProcessNiceness (nice : Z)
| NoteProcessNotFound (pid : Z)
| NotePermissionDenied (pid : Z)
| NoteFailedSwapfile
| NoteStarting (max_entries snapshot_interval : Z)
| NoteUsingWeights (weights : Weights)
| NoteLoggingTo
| NoteProfileError (profile : nat).

(** A trace entry: an event of the functions above, or one of these notes. *)
Inductive Out :=
| OEvent (e : Event)
| ONote (n : Note).

Definition lift (es : list Event) : list Out := map OEvent es.

Definition out_events (os : list Out) : list Event :=
  flat_map (fun o => match o with OEvent e => [e] | ONote _ => [] end) os.

(** How a stage of [main] hands over. *)
Inductive Stage := Continue | Return | Crash.

(** Lines 334-359: the process named on the command line. *)
Definition main_process (args : Args) (menv : MainEnv) : Stage * list Out :=
  match pid_truthy (a_pid args) with
  | None => (Continue, [])
  | Some p =>
    let read_nice (es : list Out) :=
      match process_nice menv p with
      | POk n => (Continue, es ++ [ONote (NoteProcessNiceness n)])
      | PNoSuchProcess => (Return, es ++ [ONote (NoteProcessNotFound p)])
      | PAccessDenied => (Return, es ++ [ONote (NotePermissionDenied p)])
      | PRaises => (Crash, es)
      end in
    match process_lookup menv p with
    | POk _ =>
      match a_niceness args with
      | Some n =>
        if ((n <? -20) || (19 <? n))%Z then
          (Return, [ONote (NoteMonitoring p); ONote NoteNicenessRange])
        else if main_setpriority_ok menv p n then
          read_nice [ONote (NoteMonitoring p); OEvent (ESetPriority p n true);
                     ONote (NoteSetNiceness n p)]
        else
          (Return, [ONote (NoteMonitoring p); OEvent (ESetPriority p n false);
                    ONote NoteFailedSetNiceness])
      | None => read_nice [ONote (NoteMonitoring p)]
      end
    | PNoSuchProcess => (Return, [ONote (NoteProcessNotFound p)])
    | PAccessDenied => (Return, [ONote (NotePermissionDenied p)])
    | PRaises => (Crash, [])
    end
  end.

(** How [main] ends: by returning, by an uncaught exception, or by running
    the daemon thread (forever) with the given arguments. *)
Inductive MainOutcome :=
| MainReturned
| MainCrashed
| MainDaemon (max_entries snapshot_interval : Z) (weights : Weights).

Definition main (args : Args) (config : option ConfigFile) (env : ProcEnv)
    (menv : MainEnv) (penv : ProvEnv) (w : World) (fs : option SwapFile)
    : MainOutcome * World * option SwapFile * list Out :=
  let '(initial, w1, e1) := main_initial_weights config env w in
  match initial with
  | None => (MainReturned, w1, fs, lift e1)
  | Some weights =>
    match main_process args menv with
    | (Return, e2) => (MainReturned, w1, fs, lift e1 ++ e2)
    | (Crash, e2) => (MainCrashed, w1, fs, lift e1 ++ e2)
    | (Continue, e2) =>
      let '(r, fs', e3) := create_swapfile (a_swapfile_size args) penv fs in
      match r with
      | Returns true =>
        (MainDaemon (a_max_entries args) (a_snapshot_interval args) weights, w1, fs',
         lift e1 ++ e2 ++ lift e3
         ++ [ONote (NoteStarting (a_max_entries args) (a_snapshot_interval args));
             ONote (NoteUsingWeights weights); ONote NoteLoggingTo])
      | Returns false =>
        (MainReturned, w1, fs', lift e1 ++ e2 ++ lift e3 ++ [ONote NoteFailedSwapfile])
      | Raises => (MainCrashed, w1, fs', lift e1 ++ e2 ++ lift e3)
      end
    end
  end.

(** ** [swap_niceness_utils.py] *)

(** The three alternative scores; each returns a float. *)
Definition calculate_disk_io_swappiness (metrics : Metrics) (weights : Weights) : Q :=
  let weighted_score :=
    - w_disk_latency weights * disk_latency metrics
    + w_cpu_usage weights * cpu_usage metrics
    + w_ram_usage weights * ram_usage metrics in
  py_max 1 (py_min 200 (100 + weighted_score * 100)).

Definition calculate_network_swappiness (metrics : Metrics) (weights : Weights) : Q :=
  let weighted_score :=
    - w_network_bandwidth weights * network_bandwidth metrics
    + w_ram_usage weights * ram_usage metrics
    + w_cpu_usage weights * cpu_usage metrics in
  py_max 1 (py_min 200 (100 + weighted_score * 100)).

Definition calculate_cpu_swappiness (metrics : Metrics) (weights : Weights) : Q :=
  let weighted_score :=
    - w_cpu_usage weights * cpu_usage metrics
    + w_ram_usage weights * ram_usage metrics
    + w_disk_latency weights * disk_latency metrics in
  py_max 1 (py_min 200 (100 + weighted_score * 100)).

(** The shape shared by the five profile functions: set the niceness,
    then write the swappiness; any exception ends in the error print. *)
Definition apply_profile (profile : nat) (nice value : Z) (env : ProcEnv) (pid : Z)
    (w : World) : World * list Out :=
  if setpriority_ok env pid nice then
    if tunable_writable w then
      (with_tunable w value,
       [OEvent (ESetPriority pid nice true); OEvent (EWriteTunable value true)])
    else
      (w, [OEvent (ESetPriority pid nice true); OEvent (EWriteTunable value false);
           ONote (NoteProfileError profile)])
  else
    (w, [OEvent (ESetPriority pid nice false); ONote (NoteProfileError profile)]).

Definition background_task := apply_profile 0 19 180.
Definition memory_intensive := apply_profile 1 15 10.
Definition time_critical := apply_profile 2 (-15) 5.
Definition cpu_intensive := apply_profile 3 (-10) 150.
Definition balanced_task := apply_profile 4 0 60.

Definition profiles : list (ProcEnv -> Z -> World -> World * list Out) :=
  [background_task; memory_intensive; time_critical; cpu_intensive; balanced_task].

(** ** Notions used by the further properties *)

(** The number of iterations that obtained a sample. *)
Definition sampled (inputs : list TickInput) : nat :=
  length (filter (fun inp => match in_sample inp with Some _ => true | None => false end)
                 inputs).

(** The allocation step yields a file: fallocate succeeds, or it fails
    and dd succeeds. *)
Definition allocates (env : ProvEnv) : bool :=
  match fallocate_outcome env, dd_outcome env with
  | Succeeds, _ => true
  | Fails, Succeeds => true
  | _, _ => false
  end.

(** The allocation step ends in an exception nobody catches. *)
Definition escapes (env : ProvEnv) : bool :=
  match fallocate_outcome env, dd_outcome env with
  | Errors, _ => true
  | Fails, Errors => true
  | _, _ => false
  end.

Definition succeeds (o : Outcome) : bool :=
  match o with Succeeds => true | _ => false end.

(** The external commands among the events, in order. *)
Definition commands (es : list Event) : list Cmd :=
  flat_map (fun e => match e with ERun c => [c] | _ => [] end) es.

Definition removals (es : list Event) : nat :=
  length (filter (fun e => match e with ERemove => true | _ => false end) es).

(** A command line naming process 4242 at niceness 5, a process table
    that knows it, and a host on which every provisioning step works. *)
Definition sample_args : Args :=
  mkArgs 200 5 1024 (1#4) (1#4) (1#4) (1#4) (Some 4242%Z) (Some 5%Z).

Definition friendly_menv : MainEnv :=
  mkMainEnv (fun _ => POk tt) (fun _ => POk 5%Z) (fun _ _ => true).

Definition working_penv : ProvEnv :=
  mkProvEnv Succeeds Succeeds None true Succeeds Succeeds.

(** The outcome, swapfile and trace of a run of [main]. *)
Definition main_outcome (r : MainOutcome * World * option SwapFile * list Out)
    : MainOutcome := fst (fst (fst r)).

Definition main_swapfile (r : MainOutcome * World * option SwapFile * list Out)
    : option SwapFile := snd (fst r).

Definition main_trace (r : MainOutcome * World * option SwapFile * list Out)
    : list Out := snd r.

Definition is_daemon (o : MainOutcome) : bool :=
  match o with MainDaemon _ _ _ => true | _ => false end.

(** The clamp shared by the three alternative scores. *)
Definition clamp_1_200 (x : Q) : Q := py_max 1 (py_min 200 x).

(** The samples a sequence of iterations obtained, in order. *)
Definition samples (inputs : list TickInput) : list Snapshot :=
  flat_map (fun inp => match in_sample inp with Some m => [m] | None => [] end) inputs.

(** The last [n] elements of a list. *)
Definition last_n {A} (n : nat) (l : list A) : list A := skipn (length l - n) l.

(** The configuration file sets none of the four weights. *)
Definition no_weight_keys (config : ConfigFile) : Prop :=
  DISK_LATENCY config = None /\ CPU_USAGE config = None
  /\ RAM_USAGE config = None /\ NETWORK_BANDWIDTH config = None.

(** 1 when the iteration obtained a sample, else 0. *)
Definition sample_count (inp : TickInput) : nat :=
  match in_sample inp with Some _ => 1%nat | None => 0%nat end.

(** A configuration naming process [p] at niceness [n]. *)
Definition names_pid (p n : Z) (config : ConfigFile) : Prop :=
  PID config = Some p /\ get_default (NICENESS config) DEFAULT_NICENESS = n.

(** Metrics as the sampler can produce them. *)
Definition plausible (metrics : Metrics) : Prop :=
  0 <= disk_latency metrics /\ 0 <= network_bandwidth metrics
  /\ 0 <= cpu_usage metrics /\ cpu_usage metrics <= 100
  /\ 0 <= ram_usage metrics /\ ram_usage metrics <= 100.

Definition nonneg_weights (weights : Weights) : Prop :=
  0 <= w_disk_latency weights /\ 0 <= w_cpu_usage weights
  /\ 0 <= w_ram_usage weights /\ 0 <= w_network_bandwidth weights.

(** ** The whole loop body: [try], [except] and the sleeps *)

(** [int] to [float] conversion succeeds below 2^1024 - 2^970. *)
Definition float_convertible (z : Z) : bool := (Z.abs z <? 2 ^ 1024 - 2 ^ 970)%Z.

(** Line 288, [(time.time() - start_time) / snapshot_interval], raises:
    ZeroDivisionError for 0, OverflowError for an interval no float
    holds.  When it does not, [in_elapsed] is the value of the line. *)
Definition division_raises (snapshot_interval : Z) : bool :=
  (snapshot_interval =? 0)%Z || negb (float_convertible snapshot_interval).

(** [time.sleep(snapshot_interval)] raises: ValueError below 0, and an
    error above the longest sleep the platform accepts. *)
Definition sleep_raises (longest_sleep snapshot_interval : Z) : bool :=
  (snapshot_interval <? 0)%Z || (longest_sleep <? snapshot_interval)%Z.

(** Lines 279-289 inside the [try]; the result tells whether line 288
    raised, in which case line 289 is not reached. *)
Definition sample_and_record (max_entries snapshot_interval : Z) (inp : TickInput)
    (current_weights : Weights) (weights_changed : option (Weights * Weights))
    : M bool :=
  metrics <- collect_metrics inp ;;
  match metrics with
  | Some metrics =>
    w <- get_world ;;
    put_world (with_metrics_list w (window_append max_entries (metrics_list w) metrics)) ;;;
    adjust_swappiness current_weights weights_changed ;;;
    if division_raises snapshot_interval then ret true
    else log_tick metrics (in_elapsed inp) weights_changed ;;; ret false
  | None => ret false
  end.

(** Lines 249-295, one pass.  An exception inside the [try] is caught,
    reported and followed by the sleep of line 295; if that sleep raises
    the exception leaves [run_daemon].  The locals were assigned before
    anything could raise. *)
Definition loop_pass (max_entries snapshot_interval longest_sleep : Z)
    (inp : TickInput) (d : Daemon) : M (Completion Daemon) :=
  cfg <- load_config (in_config inp) (in_env_load inp) ;;
  let '(current_weights, current_settings) := cfg in
  wc <- reload_weights current_weights d ;;
  let '(weights_changed, previous_weights') := wc in
  previous_settings' <- sync_settings current_settings (in_env_loop inp) d ;;
  raised <- sample_and_record max_entries snapshot_interval inp current_weights
                              weights_changed ;;
  (if raised || sleep_raises longest_sleep snapshot_interval
   then print MsgErrorInDaemonLoop else ret tt) ;;;
  if sleep_raises longest_sleep snapshot_interval then ret Raises
  else ret (Returns (mkDaemon previous_weights' previous_settings')).






(** The integers a C [int] holds; [os.setpriority] and [os.kill] take
    their arguments as such and raise OverflowError on others. *)
Definition c_int (z : Z) : Prop := (- 2 ^ 31 <= z <= 2 ^ 31 - 1)%Z.

(** The configured process id and niceness, if a process is configured,
    are C integers. *)
Definition config_c_int (config : option ConfigFile) : Prop :=
  forall c p, config = Some c -> pid_truthy (PID c) = Some p ->
    c_int p /\ c_int (get_default (NICENESS c) DEFAULT_NICENESS).

(** The five profile functions with their niceness and swappiness. *)
Definition profile_table : list ((ProcEnv -> Z -> World -> World * list Out) * Z * Z) :=
  [(background_task, 19, 180); (memory_intensive, 15, 10); (time_critical, -15, 5);
   (cpu_intensive, -10, 150); (balanced_task, 0, 60)]%Z.

(** ** The calculator in binary64 *)

(** A Python float: an IEEE 754 double. *)
Definition b64 : Type := spec_float.

Definition b64_of (m e : Z) : b64 := binary_normalize 53 1024 m e false.
Definition b64_add : b64 -> b64 -> b64 := SFadd 53 1024.
Definition b64_sub : b64 -> b64 -> b64 := SFsub 53 1024.
Definition b64_mul : b64 -> b64 -> b64 := SFmul 53 1024.
Definition b64_div : b64 -> b64 -> b64 := SFdiv 53 1024.

(** [min(a, b)] on floats: [b] when [b < a], else [a]. *)
Definition b64_min (a b : b64) : b64 := if SFltb b a then b else a.

(** The exact value of a finite float. *)
Definition b64_value (x : b64) : option Q :=
  match x with
  | S754_zero _ => Some 0
  | S754_finite s m e =>
    let n := if s then Zneg m else Zpos m in
    Some (match e with
          | Z0 => inject_Z n
          | Zpos k => inject_Z (n * 2 ^ Zpos k)
          | Zneg k => n # (2 ^ k)
          end)
  | S754_infinity _ => None
  | S754_nan => None
  end.

(** [int(x)]: truncation; [None] when it raises (infinity, nan). *)
Definition b64_int (x : b64) : option Z := option_map py_int (b64_value x).

(** The builtin [sum] as CPython up to 3.11 computes it: from 0, left to
    right, rounding after each addition.  (Later versions compensate the
    rounding errors of a float sum.) *)
Definition sum_left_to_right (l : list b64) : b64 :=
  fold_left b64_add l (b64_of 0 0).

Record Weights64 := mkWeights64 {
  w64_disk_latency : b64;
  w64_cpu_usage : b64;
  w64_ram_usage : b64;
  w64_network_bandwidth : b64
}.

Record Metrics64 := mkMetrics64 {
  m64_cpu_usage : b64;
  m64_ram_usage : b64;
  m64_swap_usage : b64;
  m64_swap_total_gb : b64;
  m64_swap_used_gb : b64;
  m64_disk_latency : b64;
  m64_disk_read_count : b64;
  m64_disk_write_count : b64;
  m64_network_bandwidth : b64
}.

Record Normalized64 := mkNormalized64 {
  n64_disk_latency : b64;
  n64_cpu_usage : b64;
  n64_ram_usage : b64;
  n64_network_bandwidth : b64
}.

Definition normalized_metrics_b64 (metrics : Metrics64) : Normalized64 :=
  mkNormalized64
    (b64_min (b64_of 1 0) (b64_div (m64_disk_latency metrics) (b64_of 100 0)))
    (b64_div (m64_cpu_usage metrics) (b64_of 100 0))
    (b64_div (m64_ram_usage metrics) (b64_of 100 0))
    (b64_min (b64_of 1 0) (b64_div (m64_network_bandwidth metrics) (b64_of 1000 0))).

(** [calculate_swappiness] with every step in binary64; [builtin_sum] is
    the interpreter's [sum]; [None] when [int] raises. *)
Definition calculate_swappiness_b64 (builtin_sum : list b64 -> b64)
    (metrics : Metrics64) (weights : Weights64) : option Z :=
  let n := normalized_metrics_b64 metrics in
  let weighted_score :=
    builtin_sum [ b64_mul (w64_disk_latency weights) (n64_disk_latency n);
                  b64_mul (w64_cpu_usage weights) (n64_cpu_usage n);
                  b64_mul (w64_ram_usage weights) (n64_ram_usage n);
                  b64_mul (w64_network_bandwidth weights) (n64_network_bandwidth n) ] in
  let cpu_factor := b64_sub (b64_of 1 0) (b64_div (m64_cpu_usage metrics) (b64_of 100 0)) in
  let base_swappiness :=
    b64_add (b64_of 100 0) (b64_mul (b64_sub weighted_score (b64_of 1 (-1))) (b64_of 200 0)) in
  let adjusted_swappiness := b64_mul base_swappiness cpu_factor in
  match b64_int adjusted_swappiness with
  | Some t => Some (Z.max 1 (Z.min 200 t))
  | None => None
  end.

(** The value handed to [int], as one expression. *)
Definition adjusted_b64 (builtin_sum : list b64 -> b64)
    (metrics : Metrics64) (weights : Weights64) : b64 :=
  b64_mul
    (b64_add (b64_of 100 0)
       (b64_mul
          (b64_sub
             (builtin_sum
                [ b64_mul (w64_disk_latency weights)
                    (b64_min (b64_of 1 0) (b64_div (m64_disk_latency metrics) (b64_of 100 0)));
                  b64_mul (w64_cpu_usage weights)
                    (b64_div (m64_cpu_usage metrics) (b64_of 100 0));
                  b64_mul (w64_ram_usage weights)
                    (b64_div (m64_ram_usage metrics) (b64_of 100 0));
                  b64_mul (w64_network_bandwidth weights)
                    (b64_min (b64_of 1 0)
                       (b64_div (m64_network_bandwidth metrics) (b64_of 1000 0))) ])
             (b64_of 1 (-1)))
          (b64_of 200 0)))
    (b64_sub (b64_of 1 0) (b64_div (m64_cpu_usage metrics) (b64_of 100 0))).

(** The candidate as the specification words it, in binary64: the same
    product, rounded to the nearest integer (ties to even). *)
Definition spec_candidate_b64 (builtin_sum : list b64 -> b64)
    (metrics : Metrics64) (weights : Weights64) : option Z :=
  match b64_value (adjusted_b64 builtin_sum metrics weights) with
  | Some q => Some (Z.max 1 (Z.min 200 (spec_round q)))
  | None => None
  end.

(** Sample inputs: metrics and weights given as [m * 2^e]. *)
Definition metrics64_of (disk cpu ram net : b64) : Metrics64 :=
  mkMetrics64 cpu ram (b64_of 0 0) (b64_of 0 0) (b64_of 0 0) disk (b64_of 0 0)
              (b64_of 0 0) net.

Definition quarter_weights64 : Weights64 :=
  mkWeights64 (b64_of 1 (-2)) (b64_of 1 (-2)) (b64_of 1 (-2)) (b64_of 1 (-2)).

(** * Properties *)

(** ** Truncation *)

Lemma py_int_truncates (x : Q) : truncates x (py_int x).
Proof.
  destruct x as [n d]. unfold truncates, py_int, Qle, Qlt. simpl.
  pose proof (Z.quot_rem' n (Zpos d)) as E.
  split; intros H.
  - assert (0 <= n)%Z as Hn by lia.
    pose proof (Z.rem_bound_pos n (Zpos d) Hn ltac:(lia)). nia.
  - assert (n <= 0)%Z as Hn by lia.
    pose proof (Z.rem_bound_pos_neg n (Zpos d) ltac:(lia) Hn). nia.
Qed.

Lemma truncates_unique (x : Q) (s t : Z) : truncates x s -> truncates x t -> s = t.
Proof.
  unfold truncates. intros [Hs1 Hs2] [Ht1 Ht2].
  destruct (Qlt_le_dec x 0) as [Hx | Hx].
  - apply Qlt_le_weak in Hx.
    destruct (Hs2 Hx) as [A B], (Ht2 Hx) as [C D].
    assert (inject_Z s - 1 < inject_Z t) as L1 by lra.
    assert (inject_Z t - 1 < inject_Z s) as L2 by lra.
    unfold Qlt, Qminus, Qplus, Qopp, inject_Z in L1, L2. simpl in L1, L2. lia.
  - destruct (Hs1 Hx) as [A B], (Ht1 Hx) as [C D].
    assert (inject_Z s < inject_Z t + 1) as L1 by lra.
    assert (inject_Z t < inject_Z s + 1) as L2 by lra.
    unfold Qlt, Qplus, inject_Z in L1, L2. simpl in L1, L2. lia.
Qed.

Lemma truncates_Qeq (x y : Q) (t : Z) : x == y -> truncates x t -> truncates y t.
Proof.
  unfold truncates. intros E [H1 H2].
  split; intros H; rewrite <- E in *; auto.
Qed.

Lemma py_int_Qeq (x y : Q) : x == y -> py_int x = py_int y.
Proof.
  intros E. apply (truncates_unique y).
  - apply (truncates_Qeq x); [exact E | apply py_int_truncates].
  - apply py_int_truncates.
Qed.

Lemma py_min_Qmin (a b : Q) : py_min a b == Qmin a b.
Proof.
  unfold py_min. destruct (Qlt_le_dec b a) as [H | H].
  - symmetry. apply Q.min_r. apply Qlt_le_weak. exact H.
  - symmetry. apply Q.min_l. exact H.
Qed.

Lemma adjusted_swappiness_formula (metrics : Metrics) (weights : Weights) :
  adjusted_swappiness metrics weights == adjusted_formula metrics weights.
Proof.
  unfold adjusted_swappiness, adjusted_formula, base_swappiness, cpu_factor,
    weighted_score, normalized_metrics, py_sum.
  simpl. rewrite !py_min_Qmin. ring.
Qed.

(** Sample evaluations; every intermediate value is a dyadic rational. *)
Example calc_trunc :
  calculate_swappiness (metrics_of 0 0 (75#2) 0) DEFAULT_WEIGHTS = 18%Z.
Proof. reflexivity. Qed.

Example calc_63 :
  calculate_swappiness (metrics_of 100 0 (425#16) 0) DEFAULT_WEIGHTS = 63%Z.
Proof. reflexivity. Qed.

Example calc_65 :
  calculate_swappiness (metrics_of 100 0 (125#4) 0) DEFAULT_WEIGHTS = 65%Z.
Proof. reflexivity. Qed.

Example calc_clamped_low :
  calculate_swappiness (metrics_of 0 100 0 0) DEFAULT_WEIGHTS = 1%Z.
Proof. reflexivity. Qed.

Example py_int_negative : py_int (-(7#2)) = (-3)%Z.
Proof. reflexivity. Qed.

(** ** The calculator *)

(** In the idealised model the candidate is the closed formula of the
    four normalised metrics, the weighted score, the base value and the
    cpu factor, with the product truncated toward zero and then clamped
    to [1, 200]. *)
Lemma idealised_candidate_truncates (metrics : Metrics) (weights : Weights) :
  let x := adjusted_formula metrics weights in
  calculate_swappiness metrics weights = Z.max 1 (Z.min 200 (py_int x))
  /\ truncates x (py_int x)
  /\ (forall t, truncates x t -> calculate_swappiness metrics weights = Z.max 1 (Z.min 200 t)).
Proof.
  intros x.
  assert (py_int (adjusted_swappiness metrics weights) = py_int x) as E
    by (apply py_int_Qeq, adjusted_swappiness_formula).
  split; [| split].
  - unfold calculate_swappiness. now rewrite E.
  - apply py_int_truncates.
  - intros t Ht. unfold calculate_swappiness. rewrite E.
    now rewrite (truncates_unique x _ _ (py_int_truncates x) Ht).
Qed.

(** C3 refuted as worded: with disk 0, cpu 0, ram 37.5, network 0 and the
    default weighting the product is 18.75; the code yields 18 where
    rounding yields 19.  (Every intermediate value is dyadic, so binary64
    computes the same; see [b64_agrees_at_counterexample].) *)
Lemma C3_round_counterexample :
  calculate_swappiness (metrics_of 0 0 (75#2) 0) DEFAULT_WEIGHTS = 18%Z
  /\ spec_candidate (metrics_of 0 0 (75#2) 0) DEFAULT_WEIGHTS = 19%Z
  /\ calculate_swappiness (metrics_of 0 0 (75#2) 0) DEFAULT_WEIGHTS
     <> spec_candidate (metrics_of 0 0 (75#2) 0) DEFAULT_WEIGHTS.
Proof. repeat split. vm_compute. discriminate. Qed.

(** C8: for a weighting whose sum is within 0.001 of 1.0 and any averaged
    metrics, the calculator returns an integer between 1 and 200. *)
Theorem C8_candidate_in_range (metrics : Metrics) (weights : Weights)
  (Hsum : Qabs (weights_total weights - 1) <= 1#1000) :
  (1 <= calculate_swappiness metrics weights <= 200)%Z.
Proof. unfold calculate_swappiness. lia. Qed.

Lemma C8_candidate_in_range_witness :
  Qabs (weights_total DEFAULT_WEIGHTS - 1) <= 1#1000
  /\ (1 <= calculate_swappiness (metrics_of 20 80 50 200) DEFAULT_WEIGHTS <= 200)%Z.
Proof.
  assert (Qabs (weights_total DEFAULT_WEIGHTS - 1) <= 1#1000) as H
    by (vm_compute; discriminate).
  split; [exact H | exact (C8_candidate_in_range (metrics_of 20 80 50 200) DEFAULT_WEIGHTS H)].
Defined.

(** ** The metrics window *)

Section Window.

Variable max_entries : Z.
Hypothesis capacity_nonneg : (0 <= max_entries)%Z.

Lemma window_append_length (l : list Snapshot) (m : Snapshot) :
  (Z.of_nat (length l) <= max_entries)%Z ->
  (Z.of_nat (length (window_append max_entries l m)) <= max_entries)%Z.
Proof.
  intros Hl. unfold window_append.
  destruct (Z.ltb_spec max_entries (Z.of_nat (length (l ++ [m])))) as [H | H].
  - destruct l as [| a l]; simpl in *.
    + lia.
    + rewrite length_app in *. simpl in *. lia.
  - exact H.
Qed.

Lemma window_appends_length (ms : list Snapshot) :
  forall l, (Z.of_nat (length l) <= max_entries)%Z ->
  (Z.of_nat (length (fold_left (window_append max_entries) ms l)) <= max_entries)%Z.
Proof.
  induction ms as [| m ms IH]; intros l Hl; simpl.
  - exact Hl.
  - apply IH. now apply window_append_length.
Qed.

Lemma window_append_full (l : list Snapshot) (m : Snapshot) :
  Z.of_nat (length l) = max_entries ->
  window_append max_entries l m = tl (l ++ [m]).
Proof.
  intros Hl. unfold window_append.
  destruct (Z.ltb_spec max_entries (Z.of_nat (length (l ++ [m])))) as [H | H].
  - reflexivity.
  - rewrite length_app in H. simpl in H. lia.
Qed.

Lemma window_append_room (l : list Snapshot) (m : Snapshot) :
  (Z.of_nat (length l) < max_entries)%Z ->
  window_append max_entries l m = l ++ [m].
Proof.
  intros H. unfold window_append.
  destruct (Z.ltb_spec max_entries (Z.of_nat (length (l ++ [m])))) as [H' | H'].
  - rewrite length_app in H'. simpl in H'. lia.
  - reflexivity.
Qed.

End Window.

(** ** The provisioner *)

(** C9: when the swapfile already exists [create_swapfile] returns [True]
    at once, leaves the file exactly as it was and runs no command, chmod
    or removal; a second call right after behaves the same. *)
Theorem C9_provision_idempotent (size_mb size_mb' : Z) (env env' : ProvEnv)
  (fs : option SwapFile) (Hex : fs <> None) :
  let r1 := create_swapfile size_mb env fs in
  let r2 := create_swapfile size_mb' env' (snd (fst r1)) in
  fst (fst r1) = Returns true /\ snd (fst r1) = fs
  /\ existsb destructive (snd r1) = false
  /\ fst (fst r2) = Returns true /\ snd (fst r2) = fs
  /\ existsb destructive (snd r2) = false.
Proof.
  destruct fs as [f |]; [| congruence].
  simpl. repeat split.
Qed.

Lemma C9_provision_idempotent_witness :
  active_swapfile <> None
  /\ fst (fst (create_swapfile 1024 failing_env active_swapfile)) = Returns true
  /\ snd (fst (create_swapfile 1024 failing_env active_swapfile)) = active_swapfile.
Proof.
  assert (active_swapfile <> None) as H by (unfold active_swapfile; discriminate).
  pose proof (C9_provision_idempotent 1024 1024 failing_env failing_env
                active_swapfile H) as P.
  split; [exact H |].
  split; [exact (proj1 P) | exact (proj1 (proj2 P))].
Defined.

(** ** Running computations *)

Lemma bind_run {A B} (c : M A) (k : A -> M B) (w : World) :
  bind c k w =
  (result (k (result (c w)) (world_after (c w))),
   world_after (k (result (c w)) (world_after (c w))),
   events (c w) ++ events (k (result (c w)) (world_after (c w)))).
Proof.
  unfold bind, result, world_after, events.
  destruct (c w) as [[a w1] e1]. simpl.
  destruct (k a w1) as [[b w2] e2]. reflexivity.
Qed.

Lemma events_triple {A} (a : A) (w : World) (e : list Event) : events (a, w, e) = e.
Proof. reflexivity. Qed.

Lemma world_after_triple {A} (a : A) (w : World) (e : list Event) :
  world_after (a, w, e) = w.
Proof. reflexivity. Qed.

Lemma result_triple {A} (a : A) (w : World) (e : list Event) : result (a, w, e) = a.
Proof. reflexivity. Qed.

Lemma tunable_writes_app (a b : list Event) :
  tunable_writes (a ++ b) = tunable_writes a ++ tunable_writes b.
Proof. apply flat_map_app. Qed.

Lemma log_records_app (a b : list Event) :
  log_records (a ++ b) = log_records a ++ log_records b.
Proof. apply flat_map_app. Qed.

Lemma priority_calls_app (a b : list Event) :
  priority_calls (a ++ b) = priority_calls a ++ priority_calls b.
Proof. apply flat_map_app. Qed.

Lemma expiry_reports_app (a b : list Event) :
  expiry_reports (a ++ b) = expiry_reports a ++ expiry_reports b.
Proof. apply flat_map_app. Qed.

(** The reconciliation steps leave the world alone and neither write the
    tunable nor log. *)
Lemma load_config_quiet (config : option ConfigFile) (env : ProcEnv) (w : World) :
  let r := load_config config env w in
  world_after r = w /\ tunable_writes (events r) = [] /\ log_records (events r) = [].
Proof.
  unfold load_config. destruct config as [c |]; [| repeat split].
  destruct (pid_truthy _) as [p |]; [| repeat split].
  destruct (pid_exists env p); [| repeat split].
  cbn. destruct (setpriority_ok env p _); repeat split.
Qed.

Lemma reload_weights_quiet (cw : Weights) (d : Daemon) (w : World) :
  let r := reload_weights cw d w in
  world_after r = w /\ tunable_writes (events r) = [] /\ log_records (events r) = []
  /\ priority_calls (events r) = [] /\ expiry_reports (events r) = [].
Proof.
  unfold reload_weights. destruct (negb _); repeat split.
Qed.

Lemma sync_settings_quiet (cs : Settings) (env : ProcEnv) (d : Daemon) (w : World) :
  let r := sync_settings cs env d w in
  world_after r = w /\ tunable_writes (events r) = [] /\ log_records (events r) = [].
Proof.
  unfold sync_settings. destruct (settings_differ _ _); [| repeat split].
  destruct (pid_truthy _) as [p |]; [| repeat split].
  destruct (pid_exists env p); [| repeat split].
  destruct (setpriority_ok env p _); repeat split.
Qed.

(** One iteration, taken apart. *)
Lemma tick_run (max_entries : Z) (inp : TickInput) (d : Daemon) (w : World) :
  let lc := load_config (in_config inp) (in_env_load inp) w in
  let cw := current_weights_of inp w in
  let rw := reload_weights cw d w in
  let ss := sync_settings (current_settings_of inp w) (in_env_loop inp) d w in
  let sa := sample_and_adjust max_entries inp cw (fst (result rw)) w in
  tick max_entries inp d w =
  (mkDaemon (snd (result rw)) (result ss), world_after sa,
   events lc ++ events rw ++ events ss ++ events sa).
Proof.
  intros lc cw rw ss sa. unfold tick.
  rewrite bind_run.
  destruct (load_config_quiet (in_config inp) (in_env_load inp) w) as [Hw _].
  fold lc in Hw |- *. rewrite Hw.
  unfold current_weights_of, current_settings_of in *. fold lc in cw, ss.
  destruct (result lc) as [cw0 cs0] eqn:Elc. simpl in cw, ss.
  rewrite bind_run.
  destruct (reload_weights_quiet cw0 d w) as [Hw2 _].
  fold cw in Hw2 |- *. fold rw in Hw2 |- *. rewrite Hw2.
  destruct (result rw) as [wc pw] eqn:Erw.
  rewrite bind_run.
  destruct (sync_settings_quiet cs0 (in_env_loop inp) d w) as [Hw3 _].
  fold ss in Hw3 |- *. rewrite Hw3.
  rewrite bind_run. simpl fst in sa. fold sa.
  unfold result at 1, world_after at 1, events at 4 5. simpl.
  rewrite app_nil_r. reflexivity.
Qed.

(** ** The calculator's gate *)

Ltac run_m :=
  unfold bind, ret, emit, print, get_world, put_world; cbn.

Lemma log_tick_run (metrics : Snapshot) (elapsed : Z)
    (wc : option (Weights * Weights)) (w : World) :
  let r := log_tick metrics elapsed wc w in
  world_after r = w /\ tunable_writes (events r) = []
  /\ log_records (events r) = [mkLogRecord metrics (tunable w) (tunable w) elapsed wc].
Proof.
  unfold log_tick, get_swappiness, write_to_log. run_m.
  destruct (tunable w) eqn:E; cbn; rewrite ?E; cbn;
    destruct (log_writable w); repeat split.
Qed.

Lemma adjust_short (weights : Weights) (wc : option (Weights * Weights)) (w : World) :
  (Z.of_nat (length (metrics_list w)) < 5)%Z ->
  adjust_swappiness weights wc w = (tt, w, []).
Proof.
  intros H. unfold adjust_swappiness. run_m.
  destruct (Z.ltb_spec (Z.of_nat (length (metrics_list w))) 5); [reflexivity | lia].
Qed.

Lemma adjust_unreadable (weights : Weights) (wc : option (Weights * Weights)) (w : World) :
  tunable w = None ->
  adjust_swappiness weights wc w = (tt, w, [])
  \/ adjust_swappiness weights wc w = (tt, w, [EPrint MsgErrorReadingSwappiness]).
Proof.
  intros H. unfold adjust_swappiness, get_swappiness. run_m.
  destruct (Z.of_nat (length (metrics_list w)) <? 5)%Z; [now left |].
  cbn. rewrite H. now right.
Qed.

Lemma adjust_gate_closed (weights : Weights) (wc : option (Weights * Weights))
    (w : World) (V : Z) :
  tunable w = Some V ->
  (Z.abs (calculate_swappiness (averages (metrics_list w)) weights - V) < 5)%Z ->
  adjust_swappiness weights wc w = (tt, w, []).
Proof.
  intros HV H. unfold adjust_swappiness, get_swappiness. run_m.
  destruct (Z.of_nat (length (metrics_list w)) <? 5)%Z; [reflexivity |].
  cbn. rewrite HV. cbn.
  destruct (Z.leb_spec 5 (Z.abs (calculate_swappiness (averages (metrics_list w)) weights - V)));
    [lia | reflexivity].
Qed.

Lemma hd_error_rev_nonempty {A} (l : list A) :
  l <> [] -> exists a, hd_error (rev l) = Some a.
Proof.
  intros H. destruct (rev l) as [| a r] eqn:E.
  - apply (f_equal (@rev A)) in E. rewrite rev_involutive in E. now destruct H.
  - now exists a.
Qed.

Lemma adjust_gate_open (weights : Weights) (wc : option (Weights * Weights))
    (w : World) (V : Z) :
  (5 <= Z.of_nat (length (metrics_list w)))%Z ->
  tunable w = Some V ->
  let C := calculate_swappiness (averages (metrics_list w)) weights in
  (5 <= Z.abs (C - V))%Z ->
  let r := adjust_swappiness weights wc w in
  tunable_writes (events r) = [C]
  /\ world_after r = (if tunable_writable w then with_tunable w C else w)
  /\ exists newest, hd_error (rev (metrics_list w)) = Some newest
       /\ log_records (events r)
          = [mkLogRecord newest (Some V) (Some C)
                         (Z.of_nat (length (metrics_list w))) wc].
Proof.
  intros Hlen HV C HC.
  destruct (hd_error_rev_nonempty (metrics_list w)) as [newest Hn].
  { intros E. rewrite E in Hlen. simpl in Hlen. lia. }
  unfold adjust_swappiness, get_swappiness, set_swappiness, write_to_log. run_m.
  destruct (Z.ltb_spec (Z.of_nat (length (metrics_list w))) 5); [lia |].
  cbn. rewrite HV. cbn. fold C.
  destruct (Z.leb_spec 5 (Z.abs (C - V))); [| lia].
  cbn. rewrite Hn.
  destruct (tunable_writable w); cbn; destruct (log_writable w); cbn;
    (split; [reflexivity | split; [reflexivity | exists newest; split; reflexivity]]).
Qed.

Lemma sample_and_adjust_run (max_entries : Z) (inp : TickInput) (cw : Weights)
    (wc : option (Weights * Weights)) (w : World) (m : Snapshot) :
  in_sample inp = Some m ->
  let w1 := with_metrics_list w (window_append max_entries (metrics_list w) m) in
  let a := adjust_swappiness cw wc w1 in
  let lt := log_tick m (in_elapsed inp) wc (world_after a) in
  sample_and_adjust max_entries inp cw wc w = (tt, world_after lt, events a ++ events lt).
Proof.
  intros H w1 a lt. unfold sample_and_adjust, collect_metrics. rewrite H.
  rewrite bind_run. cbn -[adjust_swappiness log_tick].
  fold w1. rewrite bind_run. fold a. fold lt.
  destruct lt as [[[] w2] e2]. reflexivity.
Qed.

(** An iteration that obtained a sample: what it writes and logs is what
    the calculator writes and logs, followed by the per-iteration record. *)
Lemma tick_with_sample (max_entries : Z) (inp : TickInput) (d : Daemon) (w : World)
    (m : Snapshot) :
  in_sample inp = Some m ->
  let w1 := with_metrics_list w (window_append max_entries (metrics_list w) m) in
  let wc := weights_changed_of inp d w in
  let a := adjust_swappiness (current_weights_of inp w) wc w1 in
  let r := tick max_entries inp d w in
  tunable_writes (events r) = tunable_writes (events a)
  /\ world_after r = world_after a
  /\ log_records (events r)
     = log_records (events a)
       ++ [mkLogRecord m (tunable (world_after a)) (tunable (world_after a))
                       (in_elapsed inp) wc].
Proof.
  intros Hs w1 wc a r. unfold r. rewrite tick_run.
  fold (weights_changed_of inp d w). fold wc.
  rewrite (sample_and_adjust_run _ _ _ _ _ m Hs). fold w1. fold a.
  destruct (load_config_quiet (in_config inp) (in_env_load inp) w) as (_ & T1 & L1).
  destruct (reload_weights_quiet (current_weights_of inp w) d w) as (_ & T2 & L2 & _).
  destruct (sync_settings_quiet (current_settings_of inp w) (in_env_loop inp) d w)
    as (_ & T3 & L3).
  destruct (log_tick_run m (in_elapsed inp) wc (world_after a)) as (W4 & T4 & L4).
  rewrite !events_triple, !world_after_triple.
  rewrite !tunable_writes_app, !log_records_app, T1, T2, T3, T4, L1, L2, L3, L4, W4.
  cbn [app]. rewrite app_nil_r. repeat split.
Qed.

(** The calculator never changes the window. *)
Lemma adjust_keeps_window (weights : Weights) (wc : option (Weights * Weights))
    (w : World) :
  metrics_list (world_after (adjust_swappiness weights wc w)) = metrics_list w.
Proof.
  destruct (Z.lt_ge_cases (Z.of_nat (length (metrics_list w))) 5) as [Hs | Hl].
  - now rewrite adjust_short.
  - destruct (tunable w) as [V |] eqn:HV.
    + destruct (Z.lt_ge_cases
                  (Z.abs (calculate_swappiness (averages (metrics_list w)) weights - V)) 5)
        as [Hc | Ho].
      * now rewrite (adjust_gate_closed weights wc w V).
      * destruct (adjust_gate_open weights wc w V Hl HV Ho) as (_ & W & _).
        rewrite W. now destruct (tunable_writable w).
    + destruct (adjust_unreadable weights wc w HV) as [E | E]; now rewrite E.
Qed.

(** The window after one iteration. *)
Lemma tick_window (max_entries : Z) (inp : TickInput) (d : Daemon) (w : World) :
  metrics_list (world_after (tick max_entries inp d w))
  = match in_sample inp with
    | Some m => window_append max_entries (metrics_list w) m
    | None => metrics_list w
    end.
Proof.
  destruct (in_sample inp) as [m |] eqn:Hs.
  - destruct (tick_with_sample max_entries inp d w m Hs) as (_ & W & _).
    rewrite W. now rewrite adjust_keeps_window.
  - rewrite tick_run, world_after_triple.
    unfold sample_and_adjust, collect_metrics. now rewrite Hs.
Qed.

Lemma iterate_window_bounded (max_entries : Z) (inputs : list TickInput) :
  (0 <= max_entries)%Z ->
  forall (d : Daemon) (w : World),
    (Z.of_nat (length (metrics_list w)) <= max_entries)%Z ->
    (Z.of_nat (length (metrics_list (world_after (iterate max_entries inputs d w))))
     <= max_entries)%Z.
Proof.
  intros Hcap. induction inputs as [| inp rest IH]; intros d w Hw.
  - exact Hw.
  - simpl iterate. rewrite bind_run, world_after_triple. apply IH.
    rewrite tick_window. destruct (in_sample inp) as [m |]; [| exact Hw].
    now apply window_append_length.
Qed.

(** C4: starting from the empty window, after every append of any
    sequence the window holds at most [max_entries] snapshots; an append
    to a window holding exactly [max_entries] snapshots drops the head and
    keeps the others, in order and as they were, followed by the new one;
    below capacity nothing is dropped; and the loop's own window, empty at
    the start, stays within capacity through any number of iterations. *)
Theorem C4_window_fifo (max_entries : Z) (Hcap : (0 <= max_entries)%Z) :
  (forall (ms : list Snapshot) (k : nat),
      (Z.of_nat (length (fold_left (window_append max_entries) (firstn k ms) []))
       <= max_entries)%Z)
  /\ (forall (oldest : Snapshot) (rest : list Snapshot) (m : Snapshot),
         Z.of_nat (length (oldest :: rest)) = max_entries ->
         window_append max_entries (oldest :: rest) m = rest ++ [m])
  /\ (forall (l : list Snapshot) (m : Snapshot),
         (Z.of_nat (length l) < max_entries)%Z ->
         window_append max_entries l m = l ++ [m])
  /\ (forall (weights : Weights) (inputs : list TickInput) (w : World),
         (Z.of_nat (length (metrics_list
                              (world_after (run_daemon max_entries weights inputs w))))
          <= max_entries)%Z).
Proof.
  split; [| split; [| split]].
  - intros ms k. apply window_appends_length; simpl; lia.
  - intros oldest rest m H. now rewrite window_append_full.
  - intros l m H. now apply window_append_room.
  - intros weights inputs w. unfold run_daemon.
    rewrite bind_run, world_after_triple, bind_run, world_after_triple.
    apply iterate_window_bounded; [exact Hcap | simpl; lia].
Qed.

Lemma C4_window_fifo_witness :
  (0 <= 2)%Z
  /\ (forall (oldest : Snapshot) (rest : list Snapshot) (m : Snapshot),
         Z.of_nat (length (oldest :: rest)) = 2%Z ->
         window_append 2 (oldest :: rest) m = rest ++ [m]).
Proof.
  assert (0 <= 2)%Z as H by lia.
  split; [exact H | exact (proj1 (proj2 (C4_window_fifo 2 H)))].
Defined.

(** The spec's check: three distinct snapshots appended to a window of
    capacity two leave the last two, the first being gone. *)
Example window_three_into_two :
  fold_left (window_append 2) [half_ram 1; half_ram 2; half_ram 3] []
  = [half_ram 2; half_ram 3].
Proof. reflexivity. Qed.

(** C10: when the tunable cannot be read, [adjust_swappiness] returns
    without computing or applying a candidate: it writes nothing to the
    tunable, emits no record and leaves the whole world - the metrics
    window included - as it found it. *)
Theorem C10_unreadable_tunable (weights : Weights) (wc : option (Weights * Weights))
    (w : World) (Hread : tunable w = None) :
  let r := adjust_swappiness weights wc w in
  tunable_writes (events r) = []
  /\ log_records (events r) = []
  /\ metrics_list (world_after r) = metrics_list w
  /\ world_after r = w.
Proof.
  intros r. unfold r.
  destruct (adjust_unreadable weights wc w Hread) as [E | E]; rewrite E; repeat split.
Qed.

Lemma C10_unreadable_tunable_witness :
  log_records (events (adjust_swappiness DEFAULT_WEIGHTS None
     (mkWorld None true true (four_samples 50 ++ [gate_sample 50])))) = []
  /\ metrics_list (world_after (adjust_swappiness DEFAULT_WEIGHTS None
       (mkWorld None true true (four_samples 50 ++ [gate_sample 50]))))
     = four_samples 50 ++ [gate_sample 50].
Proof.
  pose proof (C10_unreadable_tunable DEFAULT_WEIGHTS None
                (mkWorld None true true (four_samples 50 ++ [gate_sample 50]))
                eq_refl) as (_ & L & Wm & _).
  split; [exact L | exact Wm].
Defined.

(** ** Process-silent computations *)

Lemma proc_silent_ret {A} (a : A) : proc_silent (ret a).
Proof. intros w. split; reflexivity. Qed.

Lemma proc_silent_bind {A B} (c : M A) (k : A -> M B) :
  proc_silent c -> (forall a, proc_silent (k a)) -> proc_silent (bind c k).
Proof.
  intros Hc Hk w. rewrite bind_run, events_triple.
  rewrite priority_calls_app, expiry_reports_app.
  destruct (Hc w) as [P1 X1].
  destruct (Hk (result (c w)) (world_after (c w))) as [P2 X2].
  rewrite P1, P2, X1, X2. split; reflexivity.
Qed.

Lemma proc_silent_emit (e : Event) :
  priority_calls [e] = [] -> expiry_reports [e] = [] -> proc_silent (emit e).
Proof. intros P X w. split; assumption. Qed.

Lemma proc_silent_get_world : proc_silent get_world.
Proof. intros w. split; reflexivity. Qed.

Lemma proc_silent_put_world (w' : World) : proc_silent (put_world w').
Proof. intros w. split; reflexivity. Qed.

Create HintDb silent.
#[local] Hint Resolve proc_silent_ret proc_silent_get_world proc_silent_put_world : silent.

Ltac silent_step :=
  match goal with
  | |- proc_silent (bind _ _) => apply proc_silent_bind; [| intros ?]
  | |- proc_silent (print _) => apply proc_silent_emit; reflexivity
  | |- proc_silent (emit _) => apply proc_silent_emit; reflexivity
  | |- proc_silent (match ?x with _ => _ end) => destruct x
  | |- proc_silent _ => solve [auto with silent]
  end.

Lemma proc_silent_get_swappiness : proc_silent get_swappiness.
Proof. unfold get_swappiness. repeat silent_step. Qed.

Lemma proc_silent_set_swappiness (v : Z) : proc_silent (set_swappiness v).
Proof. unfold set_swappiness. repeat silent_step. Qed.

Lemma proc_silent_write_to_log (m : Snapshot) (old new : option Z) (i : Z)
    (wc : option (Weights * Weights)) :
  proc_silent (write_to_log m old new i wc).
Proof. unfold write_to_log. repeat silent_step. Qed.

#[local] Hint Resolve proc_silent_get_swappiness proc_silent_set_swappiness
  proc_silent_write_to_log : silent.

Lemma proc_silent_adjust_swappiness (weights : Weights)
    (wc : option (Weights * Weights)) :
  proc_silent (adjust_swappiness weights wc).
Proof. unfold adjust_swappiness. repeat silent_step. Qed.

Lemma proc_silent_log_tick (m : Snapshot) (i : Z) (wc : option (Weights * Weights)) :
  proc_silent (log_tick m i wc).
Proof. unfold log_tick. repeat silent_step. Qed.

#[local] Hint Resolve proc_silent_adjust_swappiness proc_silent_log_tick : silent.

Lemma proc_silent_sample_and_adjust (max_entries : Z) (inp : TickInput)
    (cw : Weights) (wc : option (Weights * Weights)) :
  proc_silent (sample_and_adjust max_entries inp cw wc).
Proof. unfold sample_and_adjust, collect_metrics. repeat silent_step. Qed.

(** ** Reconciliation *)

Lemma option_Z_eqb_eq (a b : option Z) : option_Z_eqb a b = true -> a = b.
Proof.
  destruct a as [x |], b as [y |]; simpl; try discriminate; try reflexivity.
  intros H. apply Z.eqb_eq in H. now subst.
Qed.

Lemma settings_eqb_eq (a b : Settings) : settings_eqb a b = true -> a = b.
Proof.
  destruct a as [pa na], b as [pb nb]. unfold settings_eqb. simpl.
  intros H. apply andb_prop in H. destruct H as [H1 H2].
  apply option_Z_eqb_eq in H1. apply Z.eqb_eq in H2. now subst.
Qed.

(** With no process id to act on, [sync_settings] does nothing and ends
    with those settings on record. *)
Lemma sync_settings_no_pid (n : Z) (env : ProcEnv) (d : Daemon) (w : World) :
  sync_settings (mkSettings None n) env d w = (Some (mkSettings None n), w, []).
Proof.
  unfold sync_settings, settings_differ.
  destruct (previous_settings d) as [prev |] eqn:E; [| reflexivity].
  destruct (settings_eqb (mkSettings None n) prev) eqn:Eq; [| reflexivity].
  apply settings_eqb_eq in Eq. subst prev. reflexivity.
Qed.

Lemma load_config_unreadable (env : ProcEnv) (w : World) :
  load_config None env w
  = (DEFAULT_WEIGHTS, mkSettings None DEFAULT_NICENESS, w, [EPrint MsgErrorLoadingConfig]).
Proof. reflexivity. Qed.

Lemma load_config_dead_pid (config : ConfigFile) (env : ProcEnv) (w : World) (p : Z) :
  PID config = Some p -> p <> 0%Z -> pid_exists env p = false ->
  exists weights,
    load_config (Some config) env w
    = (weights, mkSettings None DEFAULT_NICENESS, w, [EPrint (MsgPidNoLongerRunning p)]).
Proof.
  intros HP Hp Hdead. unfold load_config. cbn [pid]. rewrite HP.
  unfold pid_truthy. destruct (Z.eqb_spec p 0) as [E | _]; [contradiction |].
  rewrite Hdead. eexists. reflexivity.
Qed.

Lemma names_dead_pid_inv (p : Z) (inp : TickInput) :
  names_dead_pid p inp = true ->
  exists config, in_config inp = Some config /\ PID config = Some p
                 /\ pid_exists (in_env_load inp) p = false.
Proof.
  unfold names_dead_pid. destruct (in_config inp) as [c |]; [| discriminate].
  intros H. apply andb_prop in H. destruct H as [H1 H2].
  apply option_Z_eqb_eq in H1. apply negb_true_iff in H2. now exists c.
Qed.

(** One iteration whose configuration names a process that is gone. *)
Lemma tick_dead_pid (max_entries : Z) (inp : TickInput) (d : Daemon) (w : World) (p : Z) :
  p <> 0%Z -> names_dead_pid p inp = true ->
  let r := tick max_entries inp d w in
  current_settings_of inp w = mkSettings None DEFAULT_NICENESS
  /\ previous_settings (result r) = Some (mkSettings None DEFAULT_NICENESS)
  /\ priority_calls (events r) = []
  /\ expiry_reports (events r) = [p].
Proof.
  intros Hp Hin r.
  destruct (names_dead_pid_inv p inp Hin) as (config & Hc & HP & Hdead).
  destruct (load_config_dead_pid config (in_env_load inp) w p HP Hp Hdead)
    as [weights Hlc].
  assert (current_settings_of inp w = mkSettings None DEFAULT_NICENESS) as Hcs
    by (unfold current_settings_of; rewrite Hc, Hlc; reflexivity).
  split; [exact Hcs |].
  unfold r. rewrite tick_run. rewrite Hcs, sync_settings_no_pid, Hc, Hlc.
  rewrite result_triple, !events_triple.
  destruct (reload_weights_quiet (current_weights_of inp w) d w) as (_ & _ & _ & P2 & X2).
  destruct (proc_silent_sample_and_adjust max_entries inp (current_weights_of inp w)
              (fst (result (reload_weights (current_weights_of inp w) d w))) w)
    as [P4 X4].
  rewrite !priority_calls_app, !expiry_reports_app, P2, X2, P4, X4.
  repeat split.
Qed.

(** C7 (as amended): on every iteration whose configuration still names a
    process that can no longer be observed, the process target is reset to
    none, no priority is applied, and the expiry is reported once on THAT
    iteration - so over [n] such consecutive iterations it is reported [n]
    times, not once. *)
Theorem C7_expiry_reported_each_tick (max_entries : Z) (p : Z) (Hp : p <> 0%Z)
    (inputs : list TickInput) (Hdead : forallb (names_dead_pid p) inputs = true) :
  forall (d : Daemon) (w : World),
    let r := iterate max_entries inputs d w in
    priority_calls (events r) = []
    /\ expiry_reports (events r) = repeat p (length inputs)
    /\ (inputs <> [] ->
        previous_settings (result r) = Some (mkSettings None DEFAULT_NICENESS)).
Proof.
  induction inputs as [| inp rest IH]; intros d w r.
  - repeat split. intros H. now destruct H.
  - simpl in Hdead. apply andb_prop in Hdead. destruct Hdead as [H1 H2].
    destruct (tick_dead_pid max_entries inp d w p Hp H1) as (_ & S1 & P1 & X1).
    unfold r. simpl iterate. rewrite bind_run, events_triple, result_triple.
    destruct (IH H2 (result (tick max_entries inp d w))
                 (world_after (tick max_entries inp d w))) as (P2 & X2 & S2).
    rewrite priority_calls_app, expiry_reports_app, P1, X1, P2, X2.
    split; [reflexivity |]. split; [reflexivity |].
    intros _. destruct rest as [| inp' rest'].
    + exact S1.
    + apply S2. discriminate.
Qed.

Lemma C7_expiry_reported_each_tick_witness :
  expiry_reports (events (iterate 200 [expired_input 1; expired_input 2; expired_input 3]
                            start_daemon empty_world))
  = [4242; 4242; 4242]%Z.
Proof.
  assert (4242 <> 0)%Z as Hp by discriminate.
  assert (forallb (names_dead_pid 4242)
            [expired_input 1; expired_input 2; expired_input 3] = true) as Hd
    by reflexivity.
  exact (proj1 (proj2 (C7_expiry_reported_each_tick 200 4242 Hp _ Hd
                         start_daemon empty_world))).
Defined.

(** C7 refuted as worded: process 4242 is alive on the first iteration and
    gone on the next two, the configuration staying the same; the expiry
    is reported on both of them. *)
Lemma C7_reported_again_counterexample :
  expiry_reports (events (iterate 200 [good_input; expired_input 1; expired_input 2]
                            start_daemon empty_world))
  = [4242; 4242]%Z
  /\ length (expiry_reports
               (events (iterate 200 [good_input; expired_input 1; expired_input 2]
                          start_daemon empty_world))) <> 1%nat.
Proof.
  assert (expiry_reports
            (events (iterate 200 [good_input; expired_input 1; expired_input 2]
                       start_daemon empty_world)) = [4242; 4242]%Z) as E
    by (vm_compute; reflexivity).
  split; [exact E | rewrite E; discriminate].
Qed.

(** C6 (as amended): when the configuration file cannot be read or parsed
    the iteration still runs to its end and reports the error, but it does
    not retain the last loaded values: it runs with the built-in default
    weighting (0.25 each) and with no process target at default niceness,
    applies no priority, and records these as the current configuration. *)
Theorem C6_config_failure_falls_back (max_entries : Z) (inp : TickInput)
    (d : Daemon) (w : World) (Hfail : in_config inp = None) :
  let r := tick max_entries inp d w in
  let wc := weights_changed_of inp d w in
  current_weights_of inp w = DEFAULT_WEIGHTS
  /\ current_settings_of inp w = mkSettings None DEFAULT_NICENESS
  /\ In (EPrint MsgErrorLoadingConfig) (events r)
  /\ priority_calls (events r) = []
  /\ previous_settings (result r) = Some (mkSettings None DEFAULT_NICENESS)
  /\ (weights_eqb DEFAULT_WEIGHTS (previous_weights d) = false ->
      previous_weights (result r) = DEFAULT_WEIGHTS
      /\ wc = Some (previous_weights d, DEFAULT_WEIGHTS))
  /\ world_after r = world_after (sample_and_adjust max_entries inp DEFAULT_WEIGHTS wc w).
Proof.
  intros r wc.
  assert (current_weights_of inp w = DEFAULT_WEIGHTS) as Hcw
    by (unfold current_weights_of; rewrite Hfail; reflexivity).
  assert (current_settings_of inp w = mkSettings None DEFAULT_NICENESS) as Hcs
    by (unfold current_settings_of; rewrite Hfail; reflexivity).
  split; [exact Hcw |]. split; [exact Hcs |].
  unfold r, wc, weights_changed_of. rewrite tick_run.
  rewrite Hcs, Hcw, sync_settings_no_pid, Hfail, load_config_unreadable.
  rewrite result_triple, !events_triple, world_after_triple.
  destruct (reload_weights_quiet DEFAULT_WEIGHTS d w) as (_ & _ & _ & P2 & _).
  destruct (proc_silent_sample_and_adjust max_entries inp DEFAULT_WEIGHTS
              (fst (result (reload_weights DEFAULT_WEIGHTS d w))) w) as [P4 _].
  split; [left; reflexivity |].
  split; [rewrite !priority_calls_app, P2, P4; reflexivity |].
  split; [reflexivity |].
  split; [| reflexivity].
  intros Hne. unfold reload_weights. rewrite Hne. split; reflexivity.
Qed.

Lemma C6_config_failure_falls_back_witness :
  current_weights_of unreadable_input empty_world = DEFAULT_WEIGHTS
  /\ current_settings_of unreadable_input empty_world = mkSettings None DEFAULT_NICENESS.
Proof.
  pose proof (C6_config_failure_falls_back 200 unreadable_input start_daemon
                empty_world eq_refl) as (H1 & H2 & _).
  split; [exact H1 | exact H2].
Defined.

(** C6 refuted as worded: one iteration loads a weighting of
    (0.5, 0.5, 0, 0) and the live process 4242 at niceness 5; on the next
    the file is unreadable, and that iteration runs with the default
    weighting and without process target instead of the loaded values. *)
Lemma C6_not_retained_counterexample :
  previous_weights (result (tick 200 good_input start_daemon empty_world))
  = custom_weights
  /\ previous_settings (result (tick 200 good_input start_daemon empty_world))
     = Some (mkSettings (Some 4242%Z) 5)
  /\ current_weights_of unreadable_input
       (world_after (tick 200 good_input start_daemon empty_world))
     = DEFAULT_WEIGHTS
  /\ weights_eqb DEFAULT_WEIGHTS custom_weights = false
  /\ current_weights_of unreadable_input
       (world_after (tick 200 good_input start_daemon empty_world))
     <> custom_weights
  /\ current_settings_of unreadable_input
       (world_after (tick 200 good_input start_daemon empty_world))
     <> mkSettings (Some 4242%Z) 5.
Proof.
  repeat split; try discriminate.
Qed.

(** ** Unvalidated reload *)

(** C1, the code at the failing input: the configuration supplies the
    weighting (0.5, 0.5, 0.5, 0.5), whose sum 2.0 [validate_weights]
    rejects and with which startup refuses to go on; the loop iteration
    nevertheless adopts it, computes the candidate
    50 with it and writes 50 over the tunable, which read 25 - the value
    the previously active default weighting yields for the same window. *)
Theorem C1_invalid_weighting_adopted :
  validate_weights invalid_weights = false
  /\ result (main_initial_weights (in_config invalid_input) (in_env_load invalid_input)
                                  invalid_world) = None
  /\ validate_weights (previous_weights settled) = true
  /\ current_weights_of invalid_input invalid_world = invalid_weights
  /\ previous_weights (result (tick 200 invalid_input settled invalid_world))
     = invalid_weights
  /\ calculate_swappiness
       (averages (metrics_list (world_after (tick 200 invalid_input settled invalid_world))))
       (previous_weights settled) = 25%Z
  /\ tunable_writes (events (tick 200 invalid_input settled invalid_world)) = [50%Z]
  /\ tunable (world_after (tick 200 invalid_input settled invalid_world)) = Some 50%Z.
Proof.
  repeat split; vm_compute; reflexivity.
Qed.

(** * Further properties *)

(** ** Rounding *)

Lemma spec_round_nearest (y : Q) :
  - (1#2) <= inject_Z (spec_round y) - y /\ inject_Z (spec_round y) - y <= 1#2.
Proof.
  unfold spec_round.
  pose proof (Qfloor_le y) as Hlo. pose proof (Qlt_floor y) as Hhi.
  rewrite inject_Z_plus in Hhi. change (inject_Z 1) with 1 in Hhi.
  destruct (Qcompare (y - inject_Z (Qfloor y)) (1#2)) eqn:E.
  - apply Qeq_alt in E.
    destruct (Z.even (Qfloor y)).
    + split; lra.
    + rewrite inject_Z_plus. change (inject_Z 1) with 1. split; lra.
  - apply Qlt_alt in E. split; lra.
  - apply Qgt_alt in E. rewrite inject_Z_plus. change (inject_Z 1) with 1. split; lra.
Qed.

Lemma py_round2_error (x : Q) :
  - (1#200) <= py_round2 x - x /\ py_round2 x - x <= 1#200.
Proof.
  unfold py_round2. destruct (spec_round_nearest (x * 100)) as [A B].
  assert (inject_Z (spec_round (x * 100)) / 100
          == inject_Z (spec_round (x * 100)) * (1#100)) as E by reflexivity.
  rewrite E. split; lra.
Qed.

Lemma spec_round_nonneg (y : Q) : 0 <= y -> (0 <= spec_round y)%Z.
Proof.
  intros Hy. unfold spec_round.
  assert (0 <= Qfloor y)%Z as Hf.
  { change 0%Z with (Qfloor 0). apply Qfloor_resp_le. exact Hy. }
  destruct (Qcompare _ _); [destruct (Z.even _) | |]; lia.
Qed.

Lemma py_round2_nonneg (x : Q) : 0 <= x -> 0 <= py_round2 x.
Proof.
  intros Hx. unfold py_round2.
  assert (0 <= spec_round (x * 100))%Z as H by (apply spec_round_nonneg; lra).
  assert (0 <= inject_Z (spec_round (x * 100))) as H'
    by (change 0 with (inject_Z 0); rewrite <- Zle_Qle; exact H).
  assert (inject_Z (spec_round (x * 100)) / 100
          == inject_Z (spec_round (x * 100)) * (1#100)) as E by reflexivity.
  rewrite E. lra.
Qed.

(** ** The sampler *)

Lemma Qdiv_nonneg (a b : Q) : 0 <= a -> 0 < b -> 0 <= a / b.
Proof. intros Ha Hb. apply Qle_shift_div_l; [exact Hb | lra]. Qed.

Lemma inject_Z_nonneg (z : Z) : (0 <= z)%Z -> 0 <= inject_Z z.
Proof. intros H. change 0 with (inject_Z 0). now rewrite <- Zle_Qle. Qed.

Lemma inject_Z_pos (z : Z) : (0 < z)%Z -> 0 < inject_Z z.
Proof. intros H. change 0 with (inject_Z 0). now rewrite <- Zlt_Qlt. Qed.

Lemma GiB_pos : 0 < GiB.
Proof. reflexivity. Qed.

(** X1: with swap configured and no more of it in use than there is, the
    recorded swap percentage is the byte ratio times 100 (the conversion
    to GB cancels out) and lies between 0 and 100. *)
Theorem sampler_swap_usage (c : Counters)
  (Htotal : (0 < swap_total c)%Z)
  (Hused : (0 <= swap_used c <= swap_total c)%Z) :
  swap_usage (values (snapshot_from c))
  == inject_Z (swap_used c) / inject_Z (swap_total c) * 100
  /\ 0 <= swap_usage (values (snapshot_from c))
  /\ swap_usage (values (snapshot_from c)) <= 100.
Proof.
  pose proof (inject_Z_pos _ Htotal) as Ht.
  pose proof (inject_Z_nonneg _ (proj1 Hused)) as Hu.
  assert (inject_Z (swap_used c) <= inject_Z (swap_total c)) as Hle
    by (rewrite <- Zle_Qle; lia).
  pose proof GiB_pos as Hg.
  assert (swap_usage (values (snapshot_from c))
          == inject_Z (swap_used c) / inject_Z (swap_total c) * 100) as E.
  { unfold snapshot_from. cbn [values swap_usage].
    destruct (Qlt_le_dec 0 (inject_Z (swap_total c) / GiB)) as [_ | Hn].
    - field. split; lra.
    - exfalso. assert (0 < inject_Z (swap_total c) / GiB)
        by (apply Qlt_shift_div_l; lra). lra. }
  split; [exact E |]. rewrite E.
  assert (0 <= inject_Z (swap_used c) / inject_Z (swap_total c)) as A
    by (now apply Qdiv_nonneg).
  assert (inject_Z (swap_used c) / inject_Z (swap_total c) <= 1) as B
    by (apply Qle_shift_div_r; lra).
  split; lra.
Qed.

Lemma sampler_swap_usage_witness :
  swap_usage (values (snapshot_from (mkCounters 0 0 0 4096 1024 0 0 0 0 0))) <= 100.
Proof.
  assert (0 < swap_total (mkCounters 0 0 0 4096 1024 0 0 0 0 0))%Z as H1 by reflexivity.
  assert (0 <= swap_used (mkCounters 0 0 0 4096 1024 0 0 0 0 0)
          <= swap_total (mkCounters 0 0 0 4096 1024 0 0 0 0 0))%Z as H2
    by (simpl; lia).
  exact (proj2 (proj2 (sampler_swap_usage _ H1 H2))).
Defined.

(** X2: the divisions are guarded: a disk that has served no read yields
    latency 0 and a host without swap yields swap usage 0, whatever the
    other readings are. *)
Theorem sampler_guards (c : Counters) :
  ((read_count c <= 0)%Z -> disk_latency (values (snapshot_from c)) == 0)
  /\ ((swap_total c <= 0)%Z -> swap_usage (values (snapshot_from c)) == 0).
Proof.
  unfold snapshot_from. cbn [values disk_latency swap_usage]. split; intros H.
  - destruct (Z.ltb_spec 0 (read_count c)) as [H' | _]; [lia | reflexivity].
  - destruct (Qlt_le_dec 0 (inject_Z (swap_total c) / GiB)) as [Hp | _]; [| reflexivity].
    exfalso. unfold Qlt, Qdiv, Qmult, GiB in Hp. simpl in Hp. lia.
Qed.

(** X3: the recorded disk latency and network volume are within 0.005 of
    the exact mean read time and of the exact megabyte count. *)
Theorem sampler_rounding (c : Counters) (Hreads : (0 < read_count c)%Z) :
  Qabs (disk_latency (values (snapshot_from c))
        - inject_Z (read_time c) / inject_Z (read_count c)) <= 1#200
  /\ Qabs (network_bandwidth (values (snapshot_from c))
           - inject_Z (bytes_sent c + bytes_recv c) / inject_Z (1024 * 1024)) <= 1#200.
Proof.
  unfold snapshot_from. cbn [values disk_latency network_bandwidth].
  destruct (Z.ltb_spec 0 (read_count c)) as [_ | H']; [| lia].
  split; apply Qabs_Qle_condition.
  - apply py_round2_error.
  - assert (inject_Z (bytes_sent c + bytes_recv c) / inject_Z (1024 * 1024)
            == inject_Z (bytes_sent c + bytes_recv c) / 1024 / 1024) as E
      by (unfold Qdiv; rewrite <- Qmult_assoc; reflexivity).
    rewrite E. apply py_round2_error.
Qed.

Lemma sampler_rounding_witness :
  Qabs (disk_latency (values (snapshot_from (mkCounters 10 3 0 0 0 0 0 0 0 0)))
        - inject_Z 10 / inject_Z 3) <= 1#200.
Proof.
  assert (0 < read_count (mkCounters 10 3 0 0 0 0 0 0 0 0))%Z as H by reflexivity.
  exact (proj1 (sampler_rounding _ H)).
Defined.

(** X4: readings that are non-negative, with percentages between 0 and
    100, give a snapshot whose metrics are plausible. *)
Theorem sampler_plausible (c : Counters)
  (Htime : (0 <= read_time c)%Z)
  (Hnet : (0 <= bytes_sent c + bytes_recv c)%Z)
  (Hcpu : 0 <= cpu_percent c /\ cpu_percent c <= 100)
  (Hram : 0 <= virtual_memory_percent c /\ virtual_memory_percent c <= 100) :
  plausible (values (snapshot_from c)).
Proof.
  unfold plausible, snapshot_from.
  cbn [values disk_latency network_bandwidth cpu_usage ram_usage].
  repeat split; try tauto.
  - destruct (Z.ltb_spec 0 (read_count c)) as [H | H].
    + apply py_round2_nonneg, Qdiv_nonneg;
        [now apply inject_Z_nonneg | now apply inject_Z_pos].
    + discriminate.
  - apply py_round2_nonneg.
    apply Qdiv_nonneg; [| reflexivity].
    apply Qdiv_nonneg; [now apply inject_Z_nonneg | reflexivity].
Qed.

Lemma sampler_plausible_witness :
  plausible (values (snapshot_from (mkCounters 10 3 0 0 0 5 5 50 50 0))).
Proof.
  apply sampler_plausible; simpl; try lia; split; discriminate.
Defined.

Lemma collect_metrics_from_agrees (readings : option Counters) (inp : TickInput) :
  in_sample inp = option_map snapshot_from readings ->
  collect_metrics_from readings = collect_metrics inp.
Proof.
  intros H. unfold collect_metrics_from, collect_metrics. rewrite H.
  now destruct readings.
Qed.

(** ** More on the calculator *)

Lemma Qlt_succ_Zle (a b : Z) : inject_Z a < inject_Z b + 1 -> (a <= b)%Z.
Proof.
  intros H. change 1 with (inject_Z 1) in H.
  rewrite <- inject_Z_plus, <- Zlt_Qlt in H. lia.
Qed.

Lemma py_int_monotone (x y : Q) : x <= y -> (py_int x <= py_int y)%Z.
Proof.
  intros Hxy.
  destruct (py_int_truncates x) as [Xp Xn], (py_int_truncates y) as [Yp Yn].
  destruct (Qlt_le_dec x 0) as [Hx | Hx].
  - destruct (Xn (Qlt_le_weak _ _ Hx)) as [A B].
    destruct (Qlt_le_dec y 0) as [Hy | Hy].
    + destruct (Yn (Qlt_le_weak _ _ Hy)) as [C D]. apply Qlt_succ_Zle. lra.
    + destruct (Yp Hy) as [C D].
      assert (py_int x <= 0)%Z by (apply Qlt_succ_Zle; change (inject_Z 0) with 0; lra).
      assert (0 <= py_int y)%Z by (apply Qlt_succ_Zle; change (inject_Z 0) with 0; lra).
      lia.
  - destruct (Xp Hx) as [A B].
    assert (0 <= y) as Hy by lra.
    destruct (Yp Hy) as [C D]. apply Qlt_succ_Zle. lra.
Qed.

Lemma scaled_bounds (w n : Q) : 0 <= w -> 0 <= n -> n <= 1 -> 0 <= w * n /\ w * n <= w.
Proof.
  intros Hw Hn0 Hn1. split.
  - now apply Qmult_le_0_compat.
  - rewrite <- (Qmult_1_r w) at 2. rewrite !(Qmult_comm w).
    now apply Qmult_le_compat_r.
Qed.

Lemma py_min_one_bounds (x : Q) : 0 <= x -> 0 <= py_min 1 x /\ py_min 1 x <= 1.
Proof.
  intros Hx. unfold py_min. destruct (Qlt_le_dec x 1); split; lra.
Qed.

Lemma percent_bounds (x : Q) : 0 <= x -> x <= 100 -> 0 <= x / 100 /\ x / 100 <= 1.
Proof.
  intros H0 H1. assert (x / 100 == x * (1#100)) as E by reflexivity.
  rewrite E. split; lra.
Qed.

Lemma weighted_score_sum (metrics : Metrics) (weights : Weights) :
  weighted_score metrics weights
  == w_disk_latency weights * n_disk_latency (normalized_metrics metrics)
     + w_cpu_usage weights * n_cpu_usage (normalized_metrics metrics)
     + w_ram_usage weights * n_ram_usage (normalized_metrics metrics)
     + w_network_bandwidth weights * n_network_bandwidth (normalized_metrics metrics).
Proof. unfold weighted_score, py_sum. simpl. ring. Qed.



(** X6: for non-negative weights that sum to 1 and plausible metrics the
    weighted score lies in [0, 1] (the range the code's comment states),
    the adjusted value in [0, 200], so the upper clamp never cuts and the
    candidate is the truncated adjusted value, raised to 1 if below. *)
Theorem weighted_score_range (metrics : Metrics) (weights : Weights)
  (Hw : nonneg_weights weights)
  (Hsum : weights_total weights == 1)
  (Hm : plausible metrics) :
  0 <= weighted_score metrics weights /\ weighted_score metrics weights <= 1
  /\ 0 <= adjusted_swappiness metrics weights
  /\ adjusted_swappiness metrics weights <= 200
  /\ calculate_swappiness metrics weights
     = Z.max 1 (py_int (adjusted_swappiness metrics weights)).
Proof.
  destruct Hw as (Wd & Wc & Wr & Wn).
  destruct Hm as (Md & Mn & Mc0 & Mc1 & Mr0 & Mr1).
  assert (w_disk_latency weights + w_cpu_usage weights + w_ram_usage weights
          + w_network_bandwidth weights == 1) as Hs.
  { rewrite <- Hsum. unfold weights_total, py_sum. simpl. ring. }
  pose proof (weighted_score_sum metrics weights) as ES.
  unfold normalized_metrics in ES.
  cbn [n_disk_latency n_cpu_usage n_ram_usage n_network_bandwidth] in ES.
  assert (0 <= disk_latency metrics / 100) as Hd
    by (apply Qdiv_nonneg; [exact Md | reflexivity]).
  assert (0 <= network_bandwidth metrics / 1000) as Hn
    by (apply Qdiv_nonneg; [exact Mn | reflexivity]).
  destruct (py_min_one_bounds _ Hd) as [D0 D1].
  destruct (py_min_one_bounds _ Hn) as [N0 N1].
  destruct (percent_bounds _ Mc0 Mc1) as [C0 C1].
  destruct (percent_bounds _ Mr0 Mr1) as [R0 R1].
  destruct (scaled_bounds _ _ Wd D0 D1) as [A1 A2].
  destruct (scaled_bounds _ _ Wc C0 C1) as [B1 B2].
  destruct (scaled_bounds _ _ Wr R0 R1) as [E1 E2].
  destruct (scaled_bounds _ _ Wn N0 N1) as [F1 F2].
  assert (0 <= weighted_score metrics weights) as S0 by (rewrite ES; lra).
  assert (weighted_score metrics weights <= 1) as S1 by (rewrite ES; lra).
  assert (0 <= base_swappiness metrics weights
          /\ base_swappiness metrics weights <= 200) as [G0 G1]
    by (unfold base_swappiness; split; lra).
  assert (0 <= cpu_factor metrics /\ cpu_factor metrics <= 1) as [H0 H1]
    by (unfold cpu_factor; split; lra).
  assert (0 <= adjusted_swappiness metrics weights) as J0
    by (unfold adjusted_swappiness; now apply Qmult_le_0_compat).
  assert (adjusted_swappiness metrics weights <= 200) as J1.
  { unfold adjusted_swappiness.
    destruct (scaled_bounds _ _ G0 H0 H1) as [_ K]. lra. }
  repeat split; try assumption.
  unfold calculate_swappiness. f_equal. apply Z.min_r.
  destruct (py_int_truncates (adjusted_swappiness metrics weights)) as [T _].
  destruct (T J0) as [T1 _].
  assert (inject_Z (py_int (adjusted_swappiness metrics weights)) <= inject_Z 200) as L
    by (change (inject_Z 200) with 200; lra).
  rewrite <- Zle_Qle in L. exact L.
Qed.

Lemma weighted_score_range_witness :
  0 <= weighted_score (metrics_of 20 80 50 200) DEFAULT_WEIGHTS
  /\ weighted_score (metrics_of 20 80 50 200) DEFAULT_WEIGHTS <= 1.
Proof.
  assert (nonneg_weights DEFAULT_WEIGHTS) as H1 by (repeat split; discriminate).
  assert (weights_total DEFAULT_WEIGHTS == 1) as H2 by reflexivity.
  assert (plausible (metrics_of 20 80 50 200)) as H3 by (repeat split; discriminate).
  pose proof (weighted_score_range _ _ H1 H2 H3) as (A & B & _).
  split; [exact A | exact B].
Defined.

(** X7: with non-negative weights and cpu usage at most 100, raising disk
    latency, ram usage or network volume while cpu usage stays put never
    lowers the candidate. *)
Theorem candidate_monotone (m1 m2 : Metrics) (weights : Weights)
  (Hw : nonneg_weights weights)
  (Hcpu : cpu_usage m1 == cpu_usage m2)
  (Hcap : cpu_usage m1 <= 100)
  (Hdisk : disk_latency m1 <= disk_latency m2)
  (Hram : ram_usage m1 <= ram_usage m2)
  (Hnet : network_bandwidth m1 <= network_bandwidth m2) :
  (calculate_swappiness m1 weights <= calculate_swappiness m2 weights)%Z.
Proof.
  destruct Hw as (Wd & Wc & Wr & Wn).
  assert (Qmin 1 (disk_latency m1 / 100) <= Qmin 1 (disk_latency m2 / 100)) as D.
  { apply Q.min_le_compat_l.
    assert (forall x, x / 100 == x * (1#100)) as E by (intros; reflexivity).
    rewrite !E. lra. }
  assert (Qmin 1 (network_bandwidth m1 / 1000) <= Qmin 1 (network_bandwidth m2 / 1000)) as N.
  { apply Q.min_le_compat_l.
    assert (forall x, x / 1000 == x * (1#1000)) as E by (intros; reflexivity).
    rewrite !E. lra. }
  assert (ram_usage m1 / 100 <= ram_usage m2 / 100) as R.
  { assert (forall x, x / 100 == x * (1#100)) as E by (intros; reflexivity).
    rewrite !E. lra. }
  assert (0 <= 1 - cpu_usage m1 / 100) as F.
  { assert (cpu_usage m1 / 100 == cpu_usage m1 * (1#100)) as E by reflexivity.
    rewrite E. lra. }
  pose proof (Qmult_le_compat_r _ _ _ D Wd) as PD.
  pose proof (Qmult_le_compat_r _ _ _ R Wr) as PR.
  pose proof (Qmult_le_compat_r _ _ _ N Wn) as PN.
  assert (adjusted_formula m1 weights <= adjusted_formula m2 weights) as A.
  { unfold adjusted_formula. rewrite <- Hcpu.
    apply Qmult_le_compat_r; [| exact F]. lra. }
  rewrite <- !adjusted_swappiness_formula in A.
  apply py_int_monotone in A. unfold calculate_swappiness. lia.
Qed.

Lemma candidate_monotone_witness :
  (calculate_swappiness (metrics_of 0 0 25 0) DEFAULT_WEIGHTS
   <= calculate_swappiness (metrics_of 100 0 50 0) DEFAULT_WEIGHTS)%Z.
Proof.
  apply candidate_monotone; try reflexivity; try discriminate.
  repeat split; discriminate.
Defined.

(** ** More on the loop *)

(** What one call of the calculator writes and records. *)
Lemma adjust_effects (weights : Weights) (wc : option (Weights * Weights)) (w : World) :
  let r := adjust_swappiness weights wc w in
  (tunable_writes (events r) = [] /\ log_records (events r) = [] /\ world_after r = w)
  \/ (tunable_writes (events r)
      = [calculate_swappiness (averages (metrics_list w)) weights]
      /\ length (log_records (events r)) = 1%nat).
Proof.
  intros r. unfold r.
  destruct (Z.lt_ge_cases (Z.of_nat (length (metrics_list w))) 5) as [Hs | Hl].
  - left. now rewrite adjust_short.
  - destruct (tunable w) as [V |] eqn:HV.
    + destruct (Z.lt_ge_cases
                  (Z.abs (calculate_swappiness (averages (metrics_list w)) weights - V)) 5)
        as [Hc | Ho].
      * left. now rewrite (adjust_gate_closed weights wc w V).
      * right. destruct (adjust_gate_open weights wc w V Hl HV Ho)
          as (T & _ & newest & _ & L).
        split; [exact T | now rewrite L].
    + left. destruct (adjust_unreadable weights wc w HV) as [E | E];
        rewrite E; repeat split.
Qed.

Lemma tick_without_sample (max_entries : Z) (inp : TickInput) (d : Daemon) (w : World) :
  in_sample inp = None ->
  let r := tick max_entries inp d w in
  world_after r = w /\ tunable_writes (events r) = [] /\ log_records (events r) = [].
Proof.
  intros Hs r. unfold r. rewrite tick_run, world_after_triple, events_triple.
  destruct (load_config_quiet (in_config inp) (in_env_load inp) w) as (_ & T1 & L1).
  destruct (reload_weights_quiet (current_weights_of inp w) d w) as (_ & T2 & L2 & _).
  destruct (sync_settings_quiet (current_settings_of inp w) (in_env_loop inp) d w)
    as (_ & T3 & L3).
  rewrite !tunable_writes_app, !log_records_app, T1, T2, T3, L1, L2, L3.
  unfold sample_and_adjust, collect_metrics. rewrite Hs. repeat split.
Qed.

Lemma sampled_cons (inp : TickInput) (rest : list TickInput) :
  sampled (inp :: rest) = (sample_count inp + sampled rest)%nat.
Proof. unfold sampled, sample_count. simpl. now destruct (in_sample inp). Qed.

(** What one iteration writes and records. *)
Lemma tick_effects (max_entries : Z) (inp : TickInput) (d : Daemon) (w : World) :
  let r := tick max_entries inp d w in
  Forall (fun v => (1 <= v <= 200)%Z) (tunable_writes (events r))
  /\ (length (tunable_writes (events r)) <= sample_count inp)%nat
  /\ length (log_records (events r))
     = (sample_count inp + length (tunable_writes (events r)))%nat.
Proof.
  intros r. unfold r, sample_count.
  destruct (in_sample inp) as [m |] eqn:Hs.
  - destruct (tick_with_sample max_entries inp d w m Hs) as (T & _ & L).
    rewrite T, L, length_app. cbn [length].
    destruct (adjust_effects (current_weights_of inp w) (weights_changed_of inp d w)
                (with_metrics_list w (window_append max_entries (metrics_list w) m)))
      as [(T' & L' & _) | (T' & L')]; rewrite T', L'; cbn [length].
    + repeat split; [constructor | lia].
    + repeat split; [| lia].
      constructor; [unfold calculate_swappiness; lia | constructor].
  - destruct (tick_without_sample max_entries inp d w Hs) as (_ & T & L).
    rewrite T, L. repeat split; [constructor | cbn; lia].
Qed.

Lemma iterate_effects (max_entries : Z) (inputs : list TickInput) :
  forall (d : Daemon) (w : World),
    let r := iterate max_entries inputs d w in
    Forall (fun v => (1 <= v <= 200)%Z) (tunable_writes (events r))
    /\ (length (tunable_writes (events r)) <= sampled inputs)%nat
    /\ length (log_records (events r))
       = (sampled inputs + length (tunable_writes (events r)))%nat.
Proof.
  induction inputs as [| inp rest IH]; intros d w r.
  - repeat split; [constructor | cbn; lia].
  - unfold r. simpl iterate. rewrite bind_run, events_triple.
    destruct (tick_effects max_entries inp d w) as (F1 & N1 & L1).
    destruct (IH (result (tick max_entries inp d w))
                 (world_after (tick max_entries inp d w))) as (F2 & N2 & L2).
    rewrite tunable_writes_app, log_records_app, !length_app, sampled_cons.
    repeat split; [apply Forall_app; now split | lia | lia].
Qed.

Lemma run_daemon_events (max_entries : Z) (weights : Weights)
    (inputs : list TickInput) (w : World) :
  events (run_daemon max_entries weights inputs w)
  = events (iterate max_entries inputs (mkDaemon weights None) (with_metrics_list w [])).
Proof.
  unfold run_daemon. rewrite bind_run, events_triple, bind_run, events_triple.
  reflexivity.
Qed.

(** X8: through any run of the loop, every value written to the tunable
    lies in [1, 200], and the tunable is written at most once per
    iteration that obtained a sample. *)
Theorem daemon_writes_in_range (max_entries : Z) (weights : Weights)
    (inputs : list TickInput) (w : World) :
  Forall (fun v => (1 <= v <= 200)%Z)
         (tunable_writes (events (run_daemon max_entries weights inputs w)))
  /\ (length (tunable_writes (events (run_daemon max_entries weights inputs w)))
      <= sampled inputs)%nat.
Proof.
  rewrite run_daemon_events.
  destruct (iterate_effects max_entries inputs (mkDaemon weights None)
              (with_metrics_list w [])) as (F & N & _).
  split; assumption.
Qed.

(** X10: an iteration whose sampling failed leaves the tunable and the
    window as they were and writes no log record. *)
Theorem failed_sample_is_skipped (max_entries : Z) (inp : TickInput) (d : Daemon)
    (w : World) (Hfail : in_sample inp = None) :
  world_after (tick max_entries inp d w) = w
  /\ tunable_writes (events (tick max_entries inp d w)) = []
  /\ log_records (events (tick max_entries inp d w)) = []
  /\ In (EPrint MsgErrorCollectingMetrics) (events (tick max_entries inp d w)).
Proof.
  destruct (tick_without_sample max_entries inp d w Hfail) as (W & T & L).
  repeat split; try assumption.
  rewrite tick_run, events_triple.
  apply in_or_app. right. apply in_or_app. right. apply in_or_app. right.
  unfold sample_and_adjust, collect_metrics. rewrite Hfail. left. reflexivity.
Qed.

Lemma failed_sample_is_skipped_witness :
  world_after (tick 200 good_input start_daemon empty_world) = empty_world.
Proof.
  exact (proj1 (failed_sample_is_skipped 200 good_input start_daemon empty_world
                  eq_refl)).
Defined.

(** X11: once the calculator has run on a writable tunable, running it
    again on the same window changes nothing: no write, no record. *)
Theorem adjust_settles (weights : Weights) (wc wc' : option (Weights * Weights))
    (w : World) (Hwritable : tunable_writable w = true) :
  let w1 := world_after (adjust_swappiness weights wc w) in
  tunable_writes (events (adjust_swappiness weights wc' w1)) = []
  /\ log_records (events (adjust_swappiness weights wc' w1)) = []
  /\ world_after (adjust_swappiness weights wc' w1) = w1.
Proof.
  intros w1. unfold w1.
  destruct (Z.lt_ge_cases (Z.of_nat (length (metrics_list w))) 5) as [Hs | Hl].
  - rewrite (adjust_short weights wc w Hs), world_after_triple.
    now rewrite (adjust_short weights wc' w Hs).
  - destruct (tunable w) as [V |] eqn:HV.
    + destruct (Z.lt_ge_cases
                  (Z.abs (calculate_swappiness (averages (metrics_list w)) weights - V)) 5)
        as [Hc | Ho].
      * rewrite (adjust_gate_closed weights wc w V HV Hc), world_after_triple.
        now rewrite (adjust_gate_closed weights wc' w V HV Hc).
      * destruct (adjust_gate_open weights wc w V Hl HV Ho) as (_ & W & _).
        rewrite W, Hwritable.
        rewrite (adjust_gate_closed weights wc'
                   (with_tunable w (calculate_swappiness (averages (metrics_list w)) weights))
                   (calculate_swappiness (averages (metrics_list w)) weights)).
        -- repeat split.
        -- reflexivity.
        -- cbn [with_tunable metrics_list]. rewrite Z.sub_diag. reflexivity.
    + destruct (adjust_unreadable weights wc w HV) as [E | E];
        rewrite E, world_after_triple;
        destruct (adjust_unreadable weights wc' w HV) as [E' | E'];
        rewrite E'; repeat split.
Qed.

Lemma adjust_settles_witness :
  tunable_writes
    (events (adjust_swappiness DEFAULT_WEIGHTS None
               (world_after (adjust_swappiness DEFAULT_WEIGHTS None
                               (mkWorld (Some 60%Z) true true
                                        (four_samples 50 ++ [gate_sample 50]))))))
  = [].
Proof.
  exact (proj1 (adjust_settles DEFAULT_WEIGHTS None None
                  (mkWorld (Some 60%Z) true true (four_samples 50 ++ [gate_sample 50]))
                  eq_refl)).
Defined.

(** X12: when the tunable file cannot be written, a candidate that passes
    the gate leaves the tunable at its old value, and the change is
    recorded in the log all the same, as old value to candidate. *)
Theorem failed_write_is_logged (weights : Weights) (wc : option (Weights * Weights))
    (w : World) (V : Z)
  (Hlen : (5 <= Z.of_nat (length (metrics_list w)))%Z)
  (Hread : tunable w = Some V)
  (Hgate : (5 <= Z.abs (calculate_swappiness (averages (metrics_list w)) weights - V))%Z)
  (Hdenied : tunable_writable w = false) :
  let r := adjust_swappiness weights wc w in
  world_after r = w
  /\ In (EPrint MsgErrorSettingSwappiness) (events r)
  /\ exists newest,
       log_records (events r)
       = [mkLogRecord newest (Some V)
            (Some (calculate_swappiness (averages (metrics_list w)) weights))
            (Z.of_nat (length (metrics_list w))) wc].
Proof.
  intros r.
  destruct (adjust_gate_open weights wc w V Hlen Hread Hgate) as (_ & W & newest & Hn & L).
  fold r in W, L. rewrite Hdenied in W.
  split; [exact W |]. split; [| now exists newest].
  unfold r, adjust_swappiness, get_swappiness, set_swappiness, write_to_log. run_m.
  destruct (Z.ltb_spec (Z.of_nat (length (metrics_list w))) 5); [lia |].
  cbn. rewrite Hread. cbn.
  destruct (Z.leb_spec 5 (Z.abs (calculate_swappiness (averages (metrics_list w)) weights - V)));
    [| lia].
  cbn. rewrite Hdenied. cbn. rewrite Hn.
  destruct (log_writable w); cbn; right; left; reflexivity.
Qed.

Lemma failed_write_is_logged_witness :
  world_after (adjust_swappiness DEFAULT_WEIGHTS None
                 (mkWorld (Some 60%Z) false true (four_samples 50 ++ [gate_sample 50])))
  = mkWorld (Some 60%Z) false true (four_samples 50 ++ [gate_sample 50]).
Proof.
  assert (5 <= Z.abs (calculate_swappiness
                        (averages (metrics_list
                           (mkWorld (Some 60%Z) false true
                                    (four_samples 50 ++ [gate_sample 50]))))
                        DEFAULT_WEIGHTS - 60))%Z as Hg by (vm_compute; discriminate).
  assert (5 <= Z.of_nat (length (metrics_list
            (mkWorld (Some 60%Z) false true (four_samples 50 ++ [gate_sample 50])))))%Z
    as Hl by (vm_compute; discriminate).
  exact (proj1 (failed_write_is_logged DEFAULT_WEIGHTS None _ 60 Hl eq_refl Hg eq_refl)).
Defined.

(** ** More on reconciliation *)

Lemma weights_eqb_refl (a : Weights) : weights_eqb a a = true.
Proof. unfold weights_eqb. now rewrite !Qeq_bool_refl. Qed.

(** The loaded weights depend on the configuration file alone. *)
Lemma load_config_weights (config : option ConfigFile) (env env' : ProcEnv)
    (w w' : World) :
  fst (result (load_config config env w)) = fst (result (load_config config env' w')).
Proof.
  unfold load_config. destruct config as [c |]; [| reflexivity].
  destruct (pid_truthy _) as [p |]; [| reflexivity].
  destruct (pid_exists env p), (pid_exists env' p);
    try destruct (setpriority_ok env p _); try destruct (setpriority_ok env' p _);
    reflexivity.
Qed.

Lemma tick_previous_weights (max_entries : Z) (inp : TickInput) (d : Daemon) (w : World) :
  weights_eqb (current_weights_of inp w)
              (previous_weights (result (tick max_entries inp d w))) = true.
Proof.
  rewrite tick_run, result_triple. cbn [previous_weights].
  unfold reload_weights.
  destruct (weights_eqb (current_weights_of inp w) (previous_weights d)) eqn:E; cbn.
  - exact E.
  - apply weights_eqb_refl.
Qed.

(** X13: when the configured process id and niceness, if any, are C
    integers (so that [os.kill] and [os.setpriority] accept them), an
    iteration that finds the same configuration file contents as the
    iteration before it detects no weights change and keeps the recorded
    weights, whatever happened to processes, samples or the tunable in
    between. *)
Theorem unchanged_config_no_weights_change (max_entries : Z) (inp1 inp2 : TickInput)
    (d : Daemon) (w : World)
  (Hsame : in_config inp2 = in_config inp1)
  (Hcint : config_c_int (in_config inp1)) :
  let r1 := tick max_entries inp1 d w in
  let r2 := tick max_entries inp2 (result r1) (world_after r1) in
  weights_changed_of inp2 (result r1) (world_after r1) = None
  /\ previous_weights (result r2) = previous_weights (result r1).
Proof.
  intros r1 r2.
  assert (current_weights_of inp2 (world_after r1) = current_weights_of inp1 w) as Hcw.
  { unfold current_weights_of. rewrite Hsame. apply load_config_weights. }
  pose proof (tick_previous_weights max_entries inp1 d w) as Heq. fold r1 in Heq.
  split.
  - unfold weights_changed_of, reload_weights. rewrite Hcw, Heq. reflexivity.
  - unfold r2. rewrite tick_run, result_triple. cbn [previous_weights].
    unfold reload_weights. rewrite Hcw, Heq. reflexivity.
Qed.

Lemma unchanged_config_no_weights_change_witness :
  weights_changed_of good_input (result (tick 200 good_input start_daemon empty_world))
                     (world_after (tick 200 good_input start_daemon empty_world))
  = None.
Proof.
  assert (config_c_int (in_config good_input)) as Hc.
  { intros c p Hc Hp. injection Hc as <-. cbn in Hp. injection Hp as <-.
    unfold c_int. cbn. split; lia. }
  exact (proj1 (unchanged_config_no_weights_change 200 good_input good_input
                  start_daemon empty_world eq_refl Hc)).
Defined.

Lemma load_config_live_pid (config : ConfigFile) (env : ProcEnv) (w : World) (p n : Z) :
  names_pid p n config -> p <> 0%Z -> pid_exists env p = true ->
  exists weights es,
    load_config (Some config) env w = (weights, mkSettings (Some p) n, w, es)
    /\ priority_calls es = [(p, n)] /\ expiry_reports es = [].
Proof.
  intros [HP HN] Hp Hlive. unfold load_config. cbn [pid niceness]. rewrite HP, HN.
  unfold pid_truthy. destruct (Z.eqb_spec p 0) as [E | _]; [contradiction |].
  rewrite Hlive.
  destruct (setpriority_ok env p n); eexists; eexists; repeat split.
Qed.

Lemma sync_settings_live_pid (env : ProcEnv) (d : Daemon) (w : World) (p n : Z) :
  p <> 0%Z -> pid_exists env p = true ->
  let r := sync_settings (mkSettings (Some p) n) env d w in
  result r = Some (mkSettings (Some p) n)
  /\ priority_calls (events r)
     = (if settings_differ (mkSettings (Some p) n) (previous_settings d)
        then [(p, n)] else [])
  /\ expiry_reports (events r) = [].
Proof.
  intros Hp Hlive r. unfold r, sync_settings.
  destruct (settings_differ (mkSettings (Some p) n) (previous_settings d)) eqn:E.
  - cbn [pid niceness]. unfold pid_truthy.
    destruct (Z.eqb_spec p 0) as [E0 | _]; [contradiction |].
    rewrite Hlive. destruct (setpriority_ok env p n); repeat split.
  - unfold settings_differ in E.
    destruct (previous_settings d) as [prev |]; [| discriminate].
    apply negb_false_iff, settings_eqb_eq in E. subst prev. repeat split.
Qed.

(** X14: while the configured process is alive, and its id and the
    configured niceness are C integers (so that [os.setpriority] accepts
    them), every iteration calls [os.setpriority] for it from
    [load_config], and once more from the loop body exactly when the
    settings differ from those recorded by the previous iteration; the
    settings are then recorded, so the next iteration under the same
    conditions makes one call. *)
Theorem live_pid_priority_calls (max_entries : Z) (inp : TickInput) (d : Daemon)
    (w : World) (config : ConfigFile) (p n : Z)
  (Hconfig : in_config inp = Some config)
  (Hnames : names_pid p n config)
  (Hp : p <> 0%Z)
  (Hcp : c_int p)
  (Hcn : c_int n)
  (Hload : pid_exists (in_env_load inp) p = true)
  (Hloop : pid_exists (in_env_loop inp) p = true) :
  let r := tick max_entries inp d w in
  priority_calls (events r)
  = (p, n) :: (if settings_differ (mkSettings (Some p) n) (previous_settings d)
               then [(p, n)] else [])
  /\ expiry_reports (events r) = []
  /\ previous_settings (result r) = Some (mkSettings (Some p) n)
  /\ settings_differ (mkSettings (Some p) n) (previous_settings (result r)) = false.
Proof.
  intros r.
  destruct (load_config_live_pid config (in_env_load inp) w p n Hnames Hp Hload)
    as (weights & es & Hlc & P1 & X1).
  assert (current_settings_of inp w = mkSettings (Some p) n) as Hcs
    by (unfold current_settings_of; rewrite Hconfig, Hlc; reflexivity).
  destruct (sync_settings_live_pid (in_env_loop inp) d w p n Hp Hloop) as (S3 & P3 & X3).
  destruct (reload_weights_quiet (current_weights_of inp w) d w) as (_ & _ & _ & P2 & X2).
  destruct (proc_silent_sample_and_adjust max_entries inp (current_weights_of inp w)
              (fst (result (reload_weights (current_weights_of inp w) d w))) w)
    as [P4 X4].
  assert (previous_settings (result r) = Some (mkSettings (Some p) n)) as Hprev.
  { unfold r. rewrite tick_run, result_triple. cbn [previous_settings].
    rewrite Hcs. exact S3. }
  unfold r at 1 2. rewrite tick_run, events_triple, Hcs, Hconfig, Hlc, events_triple.
  rewrite !priority_calls_app, !expiry_reports_app, P1, P2, P3, P4, X1, X2, X3, X4.
  rewrite app_nil_r. repeat split; [exact Hprev |].
  rewrite Hprev. unfold settings_differ, settings_eqb. cbn.
  now rewrite !Z.eqb_refl.
Qed.

Lemma live_pid_priority_calls_witness :
  priority_calls (events (tick 200 good_input start_daemon empty_world))
  = [(4242, 5); (4242, 5)]%Z.
Proof.
  assert (names_pid 4242 5 custom_config) as Hn by (split; reflexivity).
  assert (4242 <> 0)%Z as Hp by discriminate.
  assert (c_int 4242) as Hcp by (unfold c_int; lia).
  assert (c_int 5) as Hcn by (unfold c_int; lia).
  exact (proj1 (live_pid_priority_calls 200 good_input start_daemon empty_world
                  custom_config 4242 5 eq_refl Hn Hp Hcp Hcn eq_refl eq_refl)).
Defined.

(** X15: when the configuration names no process (no PID key, PID 0, or
    an unreadable file) an iteration never calls [os.setpriority] and
    reports no expiry. *)
Theorem no_pid_no_priority (max_entries : Z) (inp : TickInput) (d : Daemon) (w : World)
  (Hnone : forall config, in_config inp = Some config -> pid_truthy (PID config) = None) :
  priority_calls (events (tick max_entries inp d w)) = []
  /\ expiry_reports (events (tick max_entries inp d w)) = [].
Proof.
  assert (exists weights s es,
             load_config (in_config inp) (in_env_load inp) w = (weights, s, w, es)
             /\ pid_truthy (pid s) = None
             /\ priority_calls es = [] /\ expiry_reports es = []) as
    (weights & s & es & Hlc & Hs & P1 & X1).
  { destruct (in_config inp) as [c |] eqn:Hc.
    - specialize (Hnone c eq_refl). unfold load_config. cbn [pid]. rewrite Hnone.
      do 3 eexists. split; [reflexivity |]. cbn [pid]. repeat split. exact Hnone.
    - do 3 eexists. split; [reflexivity |]. repeat split. }
  assert (current_settings_of inp w = s) as Hcs
    by (unfold current_settings_of; rewrite Hlc; reflexivity).
  assert (events (sync_settings s (in_env_loop inp) d w) = []) as E3.
  { unfold sync_settings. rewrite Hs. now destruct (settings_differ _ _). }
  destruct (reload_weights_quiet (current_weights_of inp w) d w) as (_ & _ & _ & P2 & X2).
  destruct (proc_silent_sample_and_adjust max_entries inp (current_weights_of inp w)
              (fst (result (reload_weights (current_weights_of inp w) d w))) w)
    as [P4 X4].
  rewrite tick_run, events_triple, Hcs, E3, Hlc, events_triple.
  rewrite !priority_calls_app, !expiry_reports_app, P1, P2, P4, X1, X2, X4.
  split; reflexivity.
Qed.

Lemma no_pid_no_priority_witness :
  priority_calls (events (tick 200 unreadable_input start_daemon empty_world)) = [].
Proof.
  assert (forall config, in_config unreadable_input = Some config ->
                         pid_truthy (PID config) = None) as H
    by (intros config Hc; discriminate Hc).
  exact (proj1 (no_pid_no_priority 200 unreadable_input start_daemon empty_world H)).
Defined.

(** ** More on the provisioner *)

Ltac provision_cases env :=
  destruct env as [fo dout pf co mo so];
  destruct fo, dout, co, mo, so, pf; cbn.

(** X16: starting without a swapfile, [create_swapfile] returns [True]
    exactly when the allocation yields a file and chmod, mkswap and swapon
    all succeed; it lets an exception escape exactly when fallocate ends
    in an OSError, or fails and dd ends in one; in every other case it
    returns [False]. *)
Theorem provision_outcome (size_mb : Z) (env : ProvEnv) :
  let r := fst (fst (create_swapfile size_mb env None)) in
  (r = Returns true
   <-> allocates env && chmod_ok env && succeeds (mkswap_outcome env)
       && succeeds (swapon_outcome env) = true)
  /\ (r = Raises <-> escapes env = true)
  /\ (r = Returns false
      <-> escapes env = false
          /\ allocates env && chmod_ok env && succeeds (mkswap_outcome env)
             && succeeds (swapon_outcome env) = false).
Proof.
  provision_cases env; repeat split; intros; try discriminate; try reflexivity;
    try tauto; try (destruct H; discriminate).
Qed.

(** X17: starting without a swapfile, a [True] result leaves a file of the
    requested size with mode 0600, carrying a swap signature and active;
    a [False] result leaves no file behind; an escaping exception leaves
    whatever the failing allocation left and removes nothing. *)
Theorem provision_file_after (size_mb : Z) (env : ProvEnv) :
  let r := create_swapfile size_mb env None in
  (fst (fst r) = Returns true -> snd (fst r) = Some (mkSwapFile size_mb 384 true true))
  /\ (fst (fst r) = Returns false -> snd (fst r) = None)
  /\ (fst (fst r) = Raises -> snd (fst r) = partial_file env /\ removals (snd r) = 0%nat).
Proof.
  provision_cases env; repeat split; intros; try discriminate; reflexivity.
Qed.

(** X18: what the provisioner never does: dd is not run unless fallocate
    failed; mkswap is not run unless the allocation yielded a file and
    chmod succeeded; swapon is not run unless mkswap succeeded; and the
    file is removed at most once, and only on the way to a [False]
    result. *)
Theorem provision_never (size_mb : Z) (env : ProvEnv) (fs : option SwapFile) :
  let r := create_swapfile size_mb env fs in
  (In (Dd size_mb) (commands (snd r)) -> fallocate_outcome env = Fails)
  /\ (In Mkswap (commands (snd r)) -> allocates env = true /\ chmod_ok env = true)
  /\ (In Swapon (commands (snd r)) -> mkswap_outcome env = Succeeds)
  /\ (removals (snd r) <= 1)%nat
  /\ (removals (snd r) = 1%nat -> fst (fst r) = Returns false).
Proof.
  destruct fs as [f |].
  - cbn. repeat split; intros; try contradiction; try lia; discriminate.
  - provision_cases env; repeat split; intros; try reflexivity; try lia;
      try discriminate;
      repeat match goal with
             | H : _ \/ _ |- _ => destruct H
             | H : False |- _ => contradiction
             | H : _ = _ |- _ => discriminate H
             end.
Qed.

(** X19: after a call that returned [True], any further call - whatever
    the size asked for and however the commands would behave - returns
    [True] too, keeps the file as it is and runs nothing. *)
Theorem provision_then_idempotent (size_mb size_mb' : Z) (env env' : ProvEnv)
    (fs : option SwapFile)
  (Hok : fst (fst (create_swapfile size_mb env fs)) = Returns true) :
  create_swapfile size_mb' env' (snd (fst (create_swapfile size_mb env fs)))
  = (Returns true, snd (fst (create_swapfile size_mb env fs)), [EPrint MsgSwapfileExists]).
Proof.
  destruct fs as [f |]; [reflexivity |].
  revert Hok. provision_cases env; intros Hok; try discriminate Hok; reflexivity.
Qed.

Lemma provision_then_idempotent_witness :
  create_swapfile 2048 failing_env
    (snd (fst (create_swapfile 1024 (mkProvEnv Fails Succeeds None true Succeeds Succeeds)
                               None)))
  = (Returns true, Some (mkSwapFile 1024 384 true true), [EPrint MsgSwapfileExists]).
Proof.
  exact (provision_then_idempotent 1024 2048
           (mkProvEnv Fails Succeeds None true Succeeds Succeeds) failing_env None
           eq_refl).
Defined.

(** ** Startup *)

Lemma main_initial_weights_run (config : option ConfigFile) (env : ProcEnv) (w : World) :
  let weights := fst (result (load_config config env w)) in
  exists es,
    main_initial_weights config env w
    = (if validate_weights weights then Some weights else None, w, es).
Proof.
  intros weights. unfold main_initial_weights. rewrite bind_run.
  destruct (load_config_quiet config env w) as (Hw & _). rewrite Hw.
  unfold weights. destruct (result (load_config config env w)) as [ws ps]. cbn [fst].
  destruct (validate_weights ws); eexists; reflexivity.
Qed.

(** What lets the process stage of [main] hand over to provisioning. *)
Lemma main_process_continue (args : Args) (menv : MainEnv) (es : list Out) :
  main_process args menv = (Continue, es) ->
  forall p, pid_truthy (a_pid args) = Some p ->
    process_lookup menv p = POk tt
    /\ (exists n, process_nice menv p = POk n)
    /\ (forall n, a_niceness args = Some n ->
          (-20 <= n <= 19)%Z /\ main_setpriority_ok menv p n = true).
Proof.
  unfold main_process. intros H p Hp. rewrite Hp in H.
  destruct (process_lookup menv p) as [[] | | |]; try discriminate H.
  split; [reflexivity |].
  destruct (a_niceness args) as [n |].
  - destruct ((n <? -20) || (19 <? n))%Z eqn:Hr; [discriminate H |].
    apply orb_false_iff in Hr. destruct Hr as [R1 R2].
    apply Z.ltb_ge in R1, R2.
    destruct (main_setpriority_ok menv p n) eqn:Hs; [| discriminate H].
    destruct (process_nice menv p) as [k | | |]; try discriminate H.
    split; [now exists k |]. intros n' Hn'. injection Hn' as <-. split; [lia | exact Hs].
  - destruct (process_nice menv p) as [k | | |]; try discriminate H.
    split; [now exists k |]. intros n' Hn'. discriminate Hn'.
Qed.

(** X20: whenever [main] gets as far as starting the daemon, the weights
    it hands over are those [load_config] returned (the command line's
    weight options play no part) and they pass [validate_weights]; the
    window capacity and interval are the command line's; a swapfile
    exists; and a process named on the command line was found, its
    niceness, if one was given, lies in [-20, 19] and was applied. *)
Theorem main_daemon_guarantees (args : Args) (config : option ConfigFile)
    (env : ProcEnv) (menv : MainEnv) (penv : ProvEnv) (w : World)
    (fs : option SwapFile)
    (max_entries snapshot_interval : Z) (weights : Weights) (w' : World)
    (fs' : option SwapFile) (es : list Out)
  (Hrun : main args config env menv penv w fs
          = (MainDaemon max_entries snapshot_interval weights, w', fs', es)) :
  weights = fst (result (load_config config env w))
  /\ validate_weights weights = true
  /\ max_entries = a_max_entries args
  /\ snapshot_interval = a_snapshot_interval args
  /\ fs' <> None
  /\ (fs = None -> fs' = Some (mkSwapFile (a_swapfile_size args) 384 true true))
  /\ (forall p, pid_truthy (a_pid args) = Some p ->
        process_lookup menv p = POk tt
        /\ forall n, a_niceness args = Some n ->
             (-20 <= n <= 19)%Z /\ main_setpriority_ok menv p n = true).
Proof.
  unfold main in Hrun.
  destruct (main_initial_weights_run config env w) as [e1 E1]. rewrite E1 in Hrun.
  destruct (validate_weights (fst (result (load_config config env w)))) eqn:Hv;
    [| discriminate Hrun].
  destruct (main_process args menv) as [[| |] e2] eqn:Hp; try discriminate Hrun.
  destruct (create_swapfile (a_swapfile_size args) penv fs) as [[r fs1] e3] eqn:Hc.
  destruct r as [[|] |]; try discriminate Hrun.
  injection Hrun as <- <- <- <- <- <-.
  pose proof (provision_file_after (a_swapfile_size args) penv) as (F1 & _).
  repeat split; try assumption; try reflexivity.
  - intros ->. destruct fs as [f |]; [cbn in Hc; discriminate Hc |].
    rewrite Hc in F1. cbn in F1. specialize (F1 eq_refl). discriminate F1.
  - intros ->. rewrite Hc in F1. now apply F1.
  - now destruct (main_process_continue args menv e2 Hp p H) as (A & _).
  - destruct (main_process_continue args menv e2 Hp p H) as (_ & _ & B).
    now apply B.
  - destruct (main_process_continue args menv e2 Hp p H) as (_ & _ & B).
    now apply B.
  - destruct (main_process_continue args menv e2 Hp p H) as (_ & _ & B).
    now apply B.
Qed.

Lemma main_daemon_guarantees_witness :
  validate_weights custom_weights = true
  /\ Some (mkSwapFile 1024 384 true true) <> None.
Proof.
  pose proof (main_daemon_guarantees sample_args (Some custom_config) live_env
                friendly_menv working_penv empty_world None
                200 5 custom_weights empty_world
                (Some (mkSwapFile 1024 384 true true)) _ eq_refl)
    as (_ & V & _ & _ & F & _).
  split; [exact V | exact F].
Defined.

Lemma out_events_app (a b : list Out) : out_events (a ++ b) = out_events a ++ out_events b.
Proof. apply flat_map_app. Qed.

Lemma out_events_lift (es : list Event) : out_events (lift es) = es.
Proof.
  unfold out_events, lift. induction es as [| e es IH]; [reflexivity |].
  cbn. now rewrite IH.
Qed.

Lemma load_config_not_destructive (config : option ConfigFile) (env : ProcEnv) (w : World) :
  existsb destructive (events (load_config config env w)) = false.
Proof.
  unfold load_config. destruct config as [c |]; [| reflexivity].
  destruct (pid_truthy _) as [p |]; [| reflexivity].
  destruct (pid_exists env p); [| reflexivity].
  destruct (setpriority_ok env p _); reflexivity.
Qed.

Lemma main_initial_weights_not_destructive (config : option ConfigFile) (env : ProcEnv)
    (w : World) :
  existsb destructive (events (main_initial_weights config env w)) = false.
Proof.
  unfold main_initial_weights. rewrite bind_run, events_triple, existsb_app.
  rewrite load_config_not_destructive.
  destruct (result (load_config config env w)) as [ws ps].
  destruct (validate_weights ws); reflexivity.
Qed.

Lemma main_process_not_destructive (args : Args) (menv : MainEnv) :
  existsb destructive (out_events (snd (main_process args menv))) = false.
Proof.
  unfold main_process. destruct (pid_truthy (a_pid args)) as [p |]; [| reflexivity].
  destruct (process_lookup menv p) as [[] | | |]; try reflexivity.
  destruct (a_niceness args) as [n |].
  - destruct ((n <? -20) || (19 <? n))%Z; [reflexivity |].
    destruct (main_setpriority_ok menv p n); [| reflexivity].
    destruct (process_nice menv p); reflexivity.
  - destruct (process_nice menv p); reflexivity.
Qed.

(** X21: when the loaded weights fail validation, or the process stage
    does not hand over (process missing or inaccessible, niceness out of
    range or not applicable), [main] ends without starting the daemon and
    without touching the swapfile: no command, chmod or removal is issued
    and what was at the path stays. *)
Theorem main_early_exit (args : Args) (config : option ConfigFile)
    (env : ProcEnv) (menv : MainEnv) (penv : ProvEnv) (w : World)
    (fs : option SwapFile)
  (Hstop : validate_weights (fst (result (load_config config env w))) = false
           \/ fst (main_process args menv) <> Continue) :
  let r := main args config env menv penv w fs in
  is_daemon (main_outcome r) = false
  /\ main_swapfile r = fs
  /\ existsb destructive (out_events (main_trace r)) = false.
Proof.
  intros r. unfold r, main.
  pose proof (main_initial_weights_not_destructive config env w) as D1.
  destruct (main_initial_weights_run config env w) as [e1 E1].
  rewrite E1 in D1 |- *. rewrite events_triple in D1.
  pose proof (main_process_not_destructive args menv) as D2.
  destruct (validate_weights (fst (result (load_config config env w)))) eqn:Hv.
  - destruct Hstop as [Hs | Hs]; [discriminate Hs |].
    destruct (main_process args menv) as [[| |] e2]; cbn [fst snd] in *.
    + now destruct Hs.
    + unfold main_outcome, main_swapfile, main_trace. cbn [fst snd].
      rewrite out_events_app, out_events_lift, existsb_app, D1, D2. repeat split.
    + unfold main_outcome, main_swapfile, main_trace. cbn [fst snd].
      rewrite out_events_app, out_events_lift, existsb_app, D1, D2. repeat split.
  - unfold main_outcome, main_swapfile, main_trace. cbn [fst snd].
    rewrite out_events_lift, D1. repeat split.
Qed.

Lemma main_early_exit_witness :
  main_swapfile (main sample_args (Some invalid_config) live_env friendly_menv
                      working_penv empty_world None) = None.
Proof.
  assert (validate_weights
            (fst (result (load_config (Some invalid_config) live_env empty_world)))
          = false
          \/ fst (main_process sample_args friendly_menv) <> Continue) as H
    by (left; vm_compute; reflexivity).
  exact (proj1 (proj2 (main_early_exit sample_args (Some invalid_config) live_env
                         friendly_menv working_penv empty_world None H))).
Defined.

(** X22: [main] itself never calls [os.setpriority] with a niceness
    outside [-20, 19], nor for a process other than the one named on the
    command line, nor before that process was found. *)
Theorem main_niceness_checked (args : Args) (menv : MainEnv) (p n : Z) (ok : bool)
  (Hcall : In (OEvent (ESetPriority p n ok)) (snd (main_process args menv))) :
  (-20 <= n <= 19)%Z
  /\ pid_truthy (a_pid args) = Some p
  /\ a_niceness args = Some n
  /\ process_lookup menv p = POk tt
  /\ ok = main_setpriority_ok menv p n.
Proof.
  unfold main_process in Hcall.
  destruct (pid_truthy (a_pid args)) as [q |]; [| contradiction].
  destruct (process_lookup menv q) as [[] | | |] eqn:Hl;
    try (cbn in Hcall; intuition discriminate).
  destruct (a_niceness args) as [m |].
  - destruct ((m <? -20) || (19 <? m))%Z eqn:Hr;
      [cbn in Hcall; intuition discriminate |].
    apply orb_false_iff in Hr. destruct Hr as [R1 R2]. apply Z.ltb_ge in R1, R2.
    assert (p = q /\ n = m /\ ok = main_setpriority_ok menv q m) as (-> & -> & ->).
    { destruct (main_setpriority_ok menv q m).
      - destruct (process_nice menv q); cbn in Hcall;
          repeat (destruct Hcall as [Hcall | Hcall]; try discriminate Hcall;
                  try contradiction);
          injection Hcall as <- <- <-; repeat split.
      - cbn in Hcall.
        repeat (destruct Hcall as [Hcall | Hcall]; try discriminate Hcall;
                try contradiction);
          injection Hcall as <- <- <-; repeat split. }
    repeat split; try assumption; lia.
  - destruct (process_nice menv q); cbn in Hcall; intuition discriminate.
Qed.

Lemma main_niceness_checked_witness :
  In (OEvent (ESetPriority 4242 5 true)) (snd (main_process sample_args friendly_menv))
  /\ (-20 <= 5 <= 19)%Z.
Proof.
  assert (In (OEvent (ESetPriority 4242 5 true))
             (snd (main_process sample_args friendly_menv))) as H
    by (cbn; right; left; reflexivity).
  split; [exact H |].
  exact (proj1 (main_niceness_checked sample_args friendly_menv 4242 5 true H)).
Defined.

(** ** The alternative scores and the profiles *)

Lemma clamp_bounds (x : Q) : 1 <= clamp_1_200 x /\ clamp_1_200 x <= 200.
Proof.
  unfold clamp_1_200, py_max, py_min.
  destruct (Qlt_le_dec x 200); destruct (Qlt_le_dec 1 _); split; lra.
Qed.

Lemma clamp_monotone (x y : Q) : x <= y -> clamp_1_200 x <= clamp_1_200 y.
Proof.
  intros H. unfold clamp_1_200, py_max, py_min.
  destruct (Qlt_le_dec x 200), (Qlt_le_dec y 200);
    repeat match goal with |- context [Qlt_le_dec ?a ?b] => destruct (Qlt_le_dec a b) end;
    lra.
Qed.

(** X23: each of the three alternative scores lies in [1, 200], as their
    docstrings say, for any metrics and weights. *)
Theorem alternative_scores_in_range (metrics : Metrics) (weights : Weights) :
  (1 <= calculate_disk_io_swappiness metrics weights
   /\ calculate_disk_io_swappiness metrics weights <= 200)
  /\ (1 <= calculate_network_swappiness metrics weights
      /\ calculate_network_swappiness metrics weights <= 200)
  /\ (1 <= calculate_cpu_swappiness metrics weights
      /\ calculate_cpu_swappiness metrics weights <= 200).
Proof.
  repeat split; apply clamp_bounds.
Qed.

(** X24: each alternative score falls, or stays, when the metric it is
    meant to protect rises and the other two it reads stay put, provided
    that metric's weight is not negative: disk latency for the disk score,
    network volume for the network score, cpu usage for the cpu score. *)
Theorem alternative_scores_antitone (m1 m2 : Metrics) (weights : Weights)
  (Hw : nonneg_weights weights) :
  (disk_latency m1 <= disk_latency m2 ->
   cpu_usage m1 == cpu_usage m2 -> ram_usage m1 == ram_usage m2 ->
   calculate_disk_io_swappiness m2 weights <= calculate_disk_io_swappiness m1 weights)
  /\ (network_bandwidth m1 <= network_bandwidth m2 ->
      cpu_usage m1 == cpu_usage m2 -> ram_usage m1 == ram_usage m2 ->
      calculate_network_swappiness m2 weights
      <= calculate_network_swappiness m1 weights)
  /\ (cpu_usage m1 <= cpu_usage m2 ->
      disk_latency m1 == disk_latency m2 -> ram_usage m1 == ram_usage m2 ->
      calculate_cpu_swappiness m2 weights <= calculate_cpu_swappiness m1 weights).
Proof.
  destruct Hw as (Wd & Wc & Wr & Wn).
  split; [| split]; intros Hle E1 E2.
  - apply clamp_monotone. rewrite E1, E2.
    pose proof (Qmult_le_compat_r _ _ _ Hle Wd) as P.
    rewrite !(Qmult_comm _ (w_disk_latency weights)) in P. lra.
  - apply clamp_monotone. rewrite E1, E2.
    pose proof (Qmult_le_compat_r _ _ _ Hle Wn) as P.
    rewrite !(Qmult_comm _ (w_network_bandwidth weights)) in P. lra.
  - apply clamp_monotone. rewrite E1, E2.
    pose proof (Qmult_le_compat_r _ _ _ Hle Wc) as P.
    rewrite !(Qmult_comm _ (w_cpu_usage weights)) in P. lra.
Qed.

Lemma alternative_scores_antitone_witness :
  calculate_disk_io_swappiness (metrics_of 1 0 0 0) DEFAULT_WEIGHTS
  <= calculate_disk_io_swappiness (metrics_of 0 0 0 0) DEFAULT_WEIGHTS.
Proof.
  assert (nonneg_weights DEFAULT_WEIGHTS) as H by (repeat split; discriminate).
  apply (proj1 (alternative_scores_antitone (metrics_of 0 0 0 0) (metrics_of 1 0 0 0)
                  DEFAULT_WEIGHTS H)).
  - discriminate.
  - reflexivity.
  - reflexivity.
Defined.

(** X25: each of the five profile functions, with its own niceness and
    swappiness (19 and 180, 15 and 10, -15 and 5, -10 and 150, 0 and 60),
    makes exactly one [os.setpriority] call, for that niceness, and is
    all-or-nothing about the tunable: if that call fails the tunable is
    not touched at all; if it succeeds the function writes its
    swappiness, a value in [1, 200], and on a writable tunable the
    tunable then holds it and nothing else of the world has changed. *)
Theorem profiles_priority_first (env : ProcEnv) (pid : Z) (w : World) :
  Forall (fun entry =>
            let '(profile, nice, value) := entry in
            (1 <= value <= 200)%Z
            /\ priority_calls (out_events (snd (profile env pid w))) = [(pid, nice)]
            /\ (setpriority_ok env pid nice = false ->
                fst (profile env pid w) = w
                /\ tunable_writes (out_events (snd (profile env pid w))) = [])
            /\ (setpriority_ok env pid nice = true ->
                tunable_writes (out_events (snd (profile env pid w))) = [value]
                /\ fst (profile env pid w)
                   = (if tunable_writable w then with_tunable w value else w)))
         profile_table.
Proof.
  unfold profile_table, background_task, memory_intensive, time_critical,
    cpu_intensive, balanced_task.
  repeat (apply Forall_cons;
          [split; [lia |]; unfold apply_profile;
           destruct (setpriority_ok env pid _); destruct (tunable_writable w);
           repeat split; intros; try discriminate; reflexivity |]).
  apply Forall_nil.
Qed.

(** ** The window holds the latest samples *)

Lemma tl_skipn {A} (k : nat) (l : list A) : tl (skipn k l) = skipn (S k) l.
Proof.
  revert l. induction k as [| k IH]; intros [| a l]; try reflexivity.
  - cbn [skipn]. apply IH.
Qed.

Lemma last_n_length {A} (n : nat) (l : list A) : length (last_n n l) = Nat.min n (length l).
Proof. unfold last_n. rewrite length_skipn. lia. Qed.

Lemma window_append_last_n (max_entries : Z) (all : list Snapshot) (m : Snapshot) :
  (0 <= max_entries)%Z ->
  window_append max_entries (last_n (Z.to_nat max_entries) all) m
  = last_n (Z.to_nat max_entries) (all ++ [m]).
Proof.
  intros Hcap.
  assert (exists n, max_entries = Z.of_nat n) as [n ->]
    by (exists (Z.to_nat max_entries); lia).
  rewrite Nat2Z.id. unfold window_append. rewrite length_app, last_n_length. cbn [length].
  unfold last_n. rewrite length_app. cbn [length].
  destruct (Z.ltb_spec (Z.of_nat n) (Z.of_nat (Nat.min n (length all) + 1))) as [H | H].
  - assert (n <= length all)%nat as Hn by lia.
    replace (length all + 1 - n)%nat with (S (length all - n)) by lia.
    rewrite <- tl_skipn. f_equal.
    rewrite skipn_app. replace (length all - n - length all)%nat with 0%nat by lia.
    reflexivity.
  - assert (length all < n)%nat as Hn by lia.
    replace (length all - n)%nat with 0%nat by lia.
    replace (length all + 1 - n)%nat with 0%nat by lia.
    reflexivity.
Qed.

Lemma iterate_window_last_n (max_entries : Z) (inputs : list TickInput) :
  (0 <= max_entries)%Z ->
  forall (d : Daemon) (w : World) (all : list Snapshot),
    metrics_list w = last_n (Z.to_nat max_entries) all ->
    metrics_list (world_after (iterate max_entries inputs d w))
    = last_n (Z.to_nat max_entries) (all ++ samples inputs).
Proof.
  intros Hcap. induction inputs as [| inp rest IH]; intros d w all Hw.
  - cbn. now rewrite app_nil_r.
  - simpl iterate. rewrite bind_run, world_after_triple.
    unfold samples. cbn [flat_map]. fold (samples rest).
    destruct (in_sample inp) as [m |] eqn:Hs.
    + rewrite (IH _ _ (all ++ [m])).
      * now rewrite <- app_assoc.
      * rewrite tick_window, Hs, Hw. now apply window_append_last_n.
    + rewrite (IH _ _ all); [reflexivity |].
      rewrite tick_window, Hs. exact Hw.
Qed.

(** X26: after any run of the loop the window holds exactly the latest
    [max_entries] samples obtained so far (all of them if there were
    fewer), oldest first; iterations whose sampling failed leave no
    trace in it. *)
Theorem window_holds_latest_samples (max_entries : Z) (weights : Weights)
    (inputs : list TickInput) (w : World)
  (Hcap : (0 <= max_entries)%Z) :
  metrics_list (world_after (run_daemon max_entries weights inputs w))
  = last_n (Z.to_nat max_entries) (samples inputs).
Proof.
  unfold run_daemon. rewrite bind_run, world_after_triple, bind_run, world_after_triple.
  apply (iterate_window_last_n max_entries inputs Hcap _ _ []).
  unfold last_n. now destruct (Z.to_nat max_entries).
Qed.

Lemma window_holds_latest_samples_witness :
  metrics_list (world_after (run_daemon 2 DEFAULT_WEIGHTS
                               [gate_input 10; unreadable_input; gate_input 20;
                                gate_input 30] empty_world))
  = [gate_sample 20; gate_sample 30].
Proof.
  assert (0 <= 2)%Z as H by lia.
  exact (window_holds_latest_samples 2 DEFAULT_WEIGHTS
           [gate_input 10; unreadable_input; gate_input 20; gate_input 30]
           empty_world H).
Defined.

(** X27: when the configuration file is unreadable or sets none of the
    four weights, startup validation always passes and the weights are
    the defaults, whatever the file says about a process and however the
    process table answers. *)
Theorem startup_defaults (config : option ConfigFile) (env : ProcEnv) (w : World)
  (Hnone : forall c, config = Some c -> no_weight_keys c) :
  result (main_initial_weights config env w) = Some DEFAULT_WEIGHTS.
Proof.
  destruct (main_initial_weights_run config env w) as [es E]. rewrite E, result_triple.
  assert (fst (result (load_config config env w)) = DEFAULT_WEIGHTS) as ->.
  { destruct config as [c |]; [| reflexivity].
    destruct (Hnone c eq_refl) as (H1 & H2 & H3 & H4).
    unfold load_config. rewrite H1, H2, H3, H4.
    destruct (pid_truthy _) as [p |]; [| reflexivity].
    destruct (pid_exists env p); [| reflexivity].
    cbn. destruct (setpriority_ok env p _); reflexivity. }
  reflexivity.
Qed.

Lemma startup_defaults_witness :
  result (main_initial_weights None live_env empty_world) = Some DEFAULT_WEIGHTS.
Proof.
  apply startup_defaults. intros c H. discriminate H.
Defined.

(** * The calculator in binary64 *)

(** C3 (as amended): in binary64, whatever way the interpreter's [sum]
    adds the four products, the candidate is the product of
    base = 100 + (weighted_score - 0.5) * 200 and cpu_factor = 1 - cpu/100
    (with disk latency and network normalised through min(1, ./100) and
    min(1, ./1000), cpu and ram through ./100), TRUNCATED toward zero -
    its fractional part dropped, not rounded - and clamped to [1, 200];
    when the product is not finite, [int] raises and there is no
    candidate. *)
Theorem C3_candidate_truncates_b64 (builtin_sum : list b64 -> b64)
    (metrics : Metrics64) (weights : Weights64) :
  match b64_value (adjusted_b64 builtin_sum metrics weights) with
  | Some x =>
    calculate_swappiness_b64 builtin_sum metrics weights
    = Some (Z.max 1 (Z.min 200 (py_int x)))
    /\ truncates x (py_int x)
    /\ (forall t, truncates x t ->
          calculate_swappiness_b64 builtin_sum metrics weights
          = Some (Z.max 1 (Z.min 200 t)))
  | None => calculate_swappiness_b64 builtin_sum metrics weights = None
  end.
Proof.
  unfold calculate_swappiness_b64, normalized_metrics_b64, b64_int.
  cbn [n64_disk_latency n64_cpu_usage n64_ram_usage n64_network_bandwidth].
  fold (adjusted_b64 builtin_sum metrics weights).
  destruct (b64_value (adjusted_b64 builtin_sum metrics weights)) as [x |]; cbn [option_map].
  - split; [reflexivity |]. split; [apply py_int_truncates |].
    intros t Ht. now rewrite (truncates_unique x _ _ (py_int_truncates x) Ht).
  - reflexivity.
Qed.

(** The inputs of the refutation of C3, in binary64: the product is
    exactly 18.75, the code yields 18 and rounding 19. *)
Lemma b64_agrees_at_counterexample :
  match b64_value (adjusted_b64 sum_left_to_right
                     (metrics64_of (b64_of 0 0) (b64_of 0 0) (b64_of 75 (-1)) (b64_of 0 0))
                     quarter_weights64) with
  | Some x => x == 75#4
  | None => False
  end
  /\ calculate_swappiness_b64 sum_left_to_right
       (metrics64_of (b64_of 0 0) (b64_of 0 0) (b64_of 75 (-1)) (b64_of 0 0))
       quarter_weights64 = Some 18%Z
  /\ spec_candidate_b64 sum_left_to_right
       (metrics64_of (b64_of 0 0) (b64_of 0 0) (b64_of 75 (-1)) (b64_of 0 0))
       quarter_weights64 = Some 19%Z.
Proof. repeat split; vm_compute; reflexivity. Qed.

(** Where binary64 and the exact rationals part: disk 20, cpu 80, ram 50,
    network 200 with weights 0.25.  In binary64 the product falls just
    short of 17 and the candidate is 16; over the rationals it is 17. *)
Lemma b64_end_to_end :
  calculate_swappiness_b64 sum_left_to_right
    (metrics64_of (b64_of 20 0) (b64_of 80 0) (b64_of 50 0) (b64_of 200 0))
    quarter_weights64 = Some 16%Z
  /\ calculate_swappiness (metrics_of 20 80 50 200) DEFAULT_WEIGHTS = 17%Z.
Proof. split; vm_compute; reflexivity. Qed.

(** A product that overflows has no candidate: [int] raises. *)
Lemma b64_overflow_raises :
  calculate_swappiness_b64 sum_left_to_right
    (metrics64_of (b64_of 100 0) (b64_of 0 0) (b64_of 0 0) (b64_of 0 0))
    (mkWeights64 (b64_of 1 1023) (b64_of 0 0) (b64_of 0 0) (b64_of 0 0)) = None.
Proof. vm_compute. reflexivity. Qed.

(** * The whole loop body *)

(** One pass, taken apart. *)
Lemma loop_pass_run (max_entries snapshot_interval longest_sleep : Z)
    (inp : TickInput) (d : Daemon) (w : World) :
  let lc := load_config (in_config inp) (in_env_load inp) w in
  let cw := current_weights_of inp w in
  let rw := reload_weights cw d w in
  let ss := sync_settings (current_settings_of inp w) (in_env_loop inp) d w in
  let sr := sample_and_record max_entries snapshot_interval inp cw (fst (result rw)) w in
  loop_pass max_entries snapshot_interval longest_sleep inp d w =
  (if sleep_raises longest_sleep snapshot_interval then Raises
   else Returns (mkDaemon (snd (result rw)) (result ss)),
   world_after sr,
   events lc ++ events rw ++ events ss ++ events sr
   ++ (if result sr || sleep_raises longest_sleep snapshot_interval
       then [EPrint MsgErrorInDaemonLoop] else [])).
Proof.
  intros lc cw rw ss sr. unfold loop_pass.
  rewrite bind_run.
  destruct (load_config_quiet (in_config inp) (in_env_load inp) w) as [Hw _].
  fold lc in Hw |- *. rewrite Hw.
  unfold current_weights_of, current_settings_of in *. fold lc in cw, ss.
  destruct (result lc) as [cw0 cs0] eqn:Elc. simpl in cw, ss.
  rewrite bind_run.
  destruct (reload_weights_quiet cw0 d w) as [Hw2 _].
  fold cw in Hw2 |- *. fold rw in Hw2 |- *. rewrite Hw2.
  destruct (result rw) as [wc pw] eqn:Erw.
  rewrite bind_run.
  destruct (sync_settings_quiet cs0 (in_env_loop inp) d w) as [Hw3 _].
  fold ss in Hw3 |- *. rewrite Hw3.
  rewrite bind_run. simpl fst in sr. fold sr.
  rewrite bind_run.
  destruct (result sr || sleep_raises longest_sleep snapshot_interval);
    destruct (sleep_raises longest_sleep snapshot_interval); reflexivity.
Qed.

Lemma sample_and_record_run (max_entries snapshot_interval : Z) (inp : TickInput)
    (cw : Weights) (wc : option (Weights * Weights)) (w : World) (m : Snapshot) :
  in_sample inp = Some m ->
  let w1 := with_metrics_list w (window_append max_entries (metrics_list w) m) in
  let a := adjust_swappiness cw wc w1 in
  let lt := log_tick m (in_elapsed inp) wc (world_after a) in
  sample_and_record max_entries snapshot_interval inp cw wc w
  = if division_raises snapshot_interval then (true, world_after a, events a)
    else (false, world_after lt, events a ++ events lt).
Proof.
  intros H w1 a lt. unfold sample_and_record, collect_metrics. rewrite H.
  rewrite bind_run. cbn -[adjust_swappiness log_tick division_raises].
  fold w1. rewrite bind_run. fold a.
  destruct (division_raises snapshot_interval).
  - cbn. now rewrite app_nil_r.
  - rewrite bind_run. fold lt. cbn. now rewrite app_nil_r.
Qed.

(** A pass that obtained a sample: what it writes and records is what
    the calculator writes and records, followed - when line 288
    evaluates - by the per-pass record. *)
Lemma loop_pass_with_sample (max_entries snapshot_interval longest_sleep : Z)
    (inp : TickInput) (d : Daemon) (w : World) (m : Snapshot) :
  in_sample inp = Some m ->
  let w1 := with_metrics_list w (window_append max_entries (metrics_list w) m) in
  let wc := weights_changed_of inp d w in
  let a := adjust_swappiness (current_weights_of inp w) wc w1 in
  let r := loop_pass max_entries snapshot_interval longest_sleep inp d w in
  tunable_writes (events r) = tunable_writes (events a)
  /\ world_after r = world_after a
  /\ log_records (events r)
     = log_records (events a)
       ++ (if division_raises snapshot_interval then []
           else [mkLogRecord m (tunable (world_after a)) (tunable (world_after a))
                             (in_elapsed inp) wc]).
Proof.
  intros Hs w1 wc a r. unfold r. rewrite loop_pass_run.
  fold (weights_changed_of inp d w). fold wc.
  rewrite (sample_and_record_run _ _ _ _ _ _ m Hs). fold w1. fold a.
  destruct (load_config_quiet (in_config inp) (in_env_load inp) w) as (_ & T1 & L1).
  destruct (reload_weights_quiet (current_weights_of inp w) d w) as (_ & T2 & L2 & _).
  destruct (sync_settings_quiet (current_settings_of inp w) (in_env_loop inp) d w)
    as (_ & T3 & L3).
  destruct (log_tick_run m (in_elapsed inp) wc (world_after a)) as (W4 & T4 & L4).
  destruct (division_raises snapshot_interval);
    rewrite !events_triple, !world_after_triple, ?result_triple;
    rewrite !tunable_writes_app, !log_records_app, T1, T2, T3, L1, L2, L3;
    rewrite ?tunable_writes_app, ?log_records_app, ?T4, ?L4, ?W4;
    cbn [app orb]; destruct (sleep_raises longest_sleep snapshot_interval);
    cbn; rewrite ?app_nil_r; repeat split.
Qed.

(** With an interval that line 288 can divide by and the sleep accepts,
    a pass is an iteration as [tick] has it. *)
Lemma loop_pass_is_tick (max_entries snapshot_interval longest_sleep : Z)
    (inp : TickInput) (d : Daemon) (w : World) :
  division_raises snapshot_interval = false ->
  sleep_raises longest_sleep snapshot_interval = false ->
  loop_pass max_entries snapshot_interval longest_sleep inp d w
  = (Returns (result (tick max_entries inp d w)),
     world_after (tick max_entries inp d w),
     events (tick max_entries inp d w)).
Proof.
  intros Hd Hs. rewrite loop_pass_run, tick_run, Hs.
  rewrite result_triple, world_after_triple, events_triple.
  assert (forall cw wc,
             sample_and_record max_entries snapshot_interval inp cw wc w
             = (false, world_after (sample_and_adjust max_entries inp cw wc w),
                events (sample_and_adjust max_entries inp cw wc w))) as E.
  { intros cw wc. destruct (in_sample inp) as [m |] eqn:Hm.
    - rewrite (sample_and_record_run _ _ _ _ _ _ m Hm), Hd.
      now rewrite (sample_and_adjust_run _ _ _ _ _ m Hm).
    - unfold sample_and_record, sample_and_adjust, collect_metrics. now rewrite Hm. }
  rewrite E. cbn [result fst snd orb world_after events].
  now rewrite app_nil_r.
Qed.

(** C2 (as amended): on a pass of the loop with a sample, a window of at
    least five snapshots, candidate [C] and tunable reading [V], the
    tunable is written with [C] exactly when [|C - V| >= 5] (and then
    reads [C] if the file is writable); when [|C - V| < 5] the calculator
    does nothing at all - no write, no record - and the tunable keeps
    [V]; the loop itself then still appends its per-pass record, carrying
    [V] as both old and new value, provided line 288 can compute the
    elapsed intervals; with a snapshot interval of 0 (or one too large
    for a float) that line raises and the pass logs nothing. *)
Theorem C2_hysteresis_gate (max_entries snapshot_interval longest_sleep : Z)
    (inp : TickInput) (d : Daemon) (w : World) (m : Snapshot) (V : Z)
  (Hsample : in_sample inp = Some m)
  (Hlen : (5 <= Z.of_nat (length (window_append max_entries (metrics_list w) m)))%Z)
  (Hread : tunable w = Some V) :
  let w1 := with_metrics_list w (window_append max_entries (metrics_list w) m) in
  let cw := current_weights_of inp w in
  let wc := weights_changed_of inp d w in
  let C := calculate_swappiness (averages (metrics_list w1)) cw in
  let r := loop_pass max_entries snapshot_interval longest_sleep inp d w in
  (tunable_writes (events r) = [C] <-> (5 <= Z.abs (C - V))%Z)
  /\ ((5 <= Z.abs (C - V))%Z -> tunable_writable w = true ->
      tunable (world_after r) = Some C)
  /\ ((Z.abs (C - V) < 5)%Z ->
      adjust_swappiness cw wc w1 = (tt, w1, [])
      /\ tunable_writes (events r) = []
      /\ tunable (world_after r) = Some V
      /\ log_records (events r)
         = (if division_raises snapshot_interval then []
            else [mkLogRecord m (Some V) (Some V) (in_elapsed inp) wc])).
Proof.
  intros w1 cw wc C r.
  destruct (loop_pass_with_sample max_entries snapshot_interval longest_sleep
              inp d w m Hsample) as (T & W & L).
  fold w1 wc cw r in T, W, L.
  assert (tunable w1 = Some V) as Hread1 by exact Hread.
  assert (forall (H : (Z.abs (C - V) < 5)%Z), adjust_swappiness cw wc w1 = (tt, w1, []))
    as Hclosed by (intros H; now apply (adjust_gate_closed cw wc w1 V)).
  split; [| split].
  - rewrite T. split.
    + intros Hw. destruct (Z.lt_ge_cases (Z.abs (C - V)) 5) as [Hlt | Hge]; [| exact Hge].
      rewrite (Hclosed Hlt) in Hw. discriminate.
    + intros Hge. now apply (adjust_gate_open cw wc w1 V).
  - intros Hge Hwr. rewrite W.
    destruct (adjust_gate_open cw wc w1 V Hlen Hread1 Hge) as (_ & Hw & _).
    rewrite Hw. change (tunable_writable w1) with (tunable_writable w).
    rewrite Hwr. reflexivity.
  - intros Hlt. rewrite T, W, L, (Hclosed Hlt). cbn.
    rewrite Hread. repeat split.
Qed.

Lemma C2_hysteresis_gate_witness :
  tunable_writes
    (events (loop_pass 200 5 86400 (gate_input (125#4)) settled (gate_world (125#4))))
  = [65%Z]
  /\ tunable
       (world_after (loop_pass 200 5 86400 (gate_input (125#4)) settled
                               (gate_world (125#4))))
     = Some 65%Z.
Proof.
  assert (in_sample (gate_input (125#4)) = Some (gate_sample (125#4))) as Hs
    by reflexivity.
  assert (5 <= Z.of_nat (length (window_append 200 (metrics_list (gate_world (125#4)))
                                   (gate_sample (125#4)))))%Z as Hl
    by (vm_compute; discriminate).
  assert (tunable (gate_world (125#4)) = Some 60%Z) as Hr by reflexivity.
  pose proof (C2_hysteresis_gate 200 5 86400 (gate_input (125#4)) settled
                (gate_world (125#4)) _ 60 Hs Hl Hr) as (G1 & G2 & _).
  assert (5 <= Z.abs (calculate_swappiness
                        (averages (metrics_list (with_metrics_list (gate_world (125#4))
                           (window_append 200 (metrics_list (gate_world (125#4)))
                              (gate_sample (125#4))))))
                        (current_weights_of (gate_input (125#4)) (gate_world (125#4)))
                      - 60))%Z as Hge
    by (vm_compute; discriminate).
  split.
  - exact (proj2 G1 Hge).
  - exact (G2 Hge eq_refl).
Defined.

(** C2 refuted as worded: with the default interval of 5 seconds, the
    tunable at 60 and a candidate of 63, the pass writes nothing to the
    tunable, yet a log record is emitted. *)
Lemma C2_log_counterexample :
  calculate_swappiness
    (averages (four_samples (425#16) ++ [gate_sample (425#16)])) DEFAULT_WEIGHTS = 63%Z
  /\ tunable_writes
       (events (loop_pass 200 5 86400 (gate_input (425#16)) settled (gate_world (425#16))))
     = []
  /\ log_records
       (events (loop_pass 200 5 86400 (gate_input (425#16)) settled (gate_world (425#16))))
     = [mkLogRecord (gate_sample (425#16)) (Some 60%Z) (Some 60%Z) 4 None]
  /\ log_records
       (events (loop_pass 200 5 86400 (gate_input (425#16)) settled (gate_world (425#16))))
     <> [].
Proof.
  assert (log_records
            (events (loop_pass 200 5 86400 (gate_input (425#16)) settled
                               (gate_world (425#16))))
          = [mkLogRecord (gate_sample (425#16)) (Some 60%Z) (Some 60%Z) 4 None])
    as L by (vm_compute; reflexivity).
  split; [vm_compute; reflexivity |].
  split; [vm_compute; reflexivity |].
  split; [exact L | rewrite L; discriminate].
Qed.

(** C5 (as amended): with fewer than five snapshots in the window the
    calculator does nothing - no tunable write, no record, world untouched
    - whatever the metrics and weights; on such a pass the tunable is
    never written; the loop still appends its per-pass record, carrying
    the current reading as both old and new value, provided line 288 can
    compute the elapsed intervals; with a snapshot interval of 0 (or one
    too large for a float) that line raises and the pass logs nothing. *)
Theorem C5_short_window (max_entries snapshot_interval longest_sleep : Z)
    (inp : TickInput) (d : Daemon) (w : World) (m : Snapshot)
  (Hsample : in_sample inp = Some m)
  (Hlen : (Z.of_nat (length (window_append max_entries (metrics_list w) m)) < 5)%Z) :
  let w1 := with_metrics_list w (window_append max_entries (metrics_list w) m) in
  let r := loop_pass max_entries snapshot_interval longest_sleep inp d w in
  (forall weights wc, adjust_swappiness weights wc w1 = (tt, w1, []))
  /\ tunable_writes (events r) = []
  /\ world_after r = w1
  /\ log_records (events r)
     = (if division_raises snapshot_interval then []
        else [mkLogRecord m (tunable w) (tunable w) (in_elapsed inp)
                          (weights_changed_of inp d w)]).
Proof.
  intros w1 r.
  assert (forall weights wc, adjust_swappiness weights wc w1 = (tt, w1, [])) as Hskip
    by (intros; now apply adjust_short).
  destruct (loop_pass_with_sample max_entries snapshot_interval longest_sleep
              inp d w m Hsample) as (T & W & L).
  fold w1 r in T, W, L. rewrite Hskip in T, W, L.
  split; [exact Hskip |]. split; [exact T |]. split; [exact W | exact L].
Qed.

Lemma C5_short_window_witness :
  tunable_writes (events (loop_pass 200 5 86400 (gate_input 50) settled empty_world)) = [].
Proof.
  assert (in_sample (gate_input 50) = Some (gate_sample 50)) as Hs by reflexivity.
  assert (Z.of_nat (length (window_append 200 (metrics_list empty_world)
                              (gate_sample 50))) < 5)%Z
    as Hl by (vm_compute; reflexivity).
  exact (proj1 (proj2 (C5_short_window 200 5 86400 (gate_input 50) settled
                         empty_world _ Hs Hl))).
Defined.

(** C5 refuted as worded: with the default interval of 5 seconds, on the
    very first pass the window holds one snapshot, and a log record is
    emitted all the same. *)
Lemma C5_log_counterexample :
  length (window_append 200 [] (gate_sample 50)) = 1%nat
  /\ log_records (events (loop_pass 200 5 86400 (gate_input 50) settled empty_world))
     = [mkLogRecord (gate_sample 50) (Some 60%Z) (Some 60%Z) 4 None]
  /\ log_records (events (loop_pass 200 5 86400 (gate_input 50) settled empty_world))
     <> [].
Proof.
  assert (log_records (events (loop_pass 200 5 86400 (gate_input 50) settled empty_world))
          = [mkLogRecord (gate_sample 50) (Some 60%Z) (Some 60%Z) 4 None])
    as L by (vm_compute; reflexivity).
  split; [reflexivity |].
  split; [exact L | rewrite L; discriminate].
Qed.

(** At a snapshot interval of 0 the same pass logs nothing and ends in
    the loop's error handler. *)
Lemma zero_interval_pass :
  log_records (events (loop_pass 200 0 86400 (gate_input 50) settled empty_world)) = []
  /\ In (EPrint MsgErrorInDaemonLoop)
        (events (loop_pass 200 0 86400 (gate_input 50) settled empty_world)).
Proof.
  split; [vm_compute; reflexivity |].
  vm_compute. right. left. reflexivity.
Qed.

(** ** Accounting for the log *)









